(** * Financial Ledger API: double-entry bookkeeping

    A shallow embedding of the ledger engine of [main.py], with the tables of
    [models.py], the request schemas of [schemas.py] and the session life
    cycle of [database.py].

    Conventions of the embedding.
    - Amounts are the fixed-point decimals of the [Numeric(19, 4)] columns,
      represented by their integer number of 1/10000 units; the amount of a
      request is the [Decimal(str(amount))] the handlers compute, in the same
      unit.  The conversion of the response amount to [float] is not
      represented.
    - The timestamps [created_at] and [updated_at] are left out.
    - A SQLAlchemy [Session] is a record: the committed rows, the rows seen
      inside the open database transaction, the pending objects, and the log
      of the statements sent to the database.
    - Code of the handlers runs in a state-and-exception monad over the
      session.  Every statement sent to the database may raise an unexpected
      error; which ones do is an explicit parameter ([Faults]). *)

From Stdlib Require Import ZArith QArith List String Bool Lia DecimalString.
Import ListNotations.

Local Open Scope string_scope.
Local Open Scope list_scope.
Local Open Scope Z_scope.

(* ================================================================== *)
(** ** models.py *)

Module Account.
Record t := mk {
  id : Z;
  user_id : string;
  account_type : string;
  currency : string;
  status : string
}.
End Account.

Module Transaction.
(** Keyword arguments of the constructor; [id] is assigned by the flush. *)
Record init := mk_init {
  init_type : string;
  init_status : string;
  init_amount : Z;
  init_currency : string;
  init_description : option string
}.
Record t := mk {
  id : Z;
  type : string;
  status : string;
  amount : Z;
  currency : string;
  description : option string
}.
Definition row (i : Z) (x : init) : t :=
  mk i (init_type x) (init_status x) (init_amount x) (init_currency x)
     (init_description x).
End Transaction.

Module LedgerEntry.
Record init := mk_init {
  init_transaction_id : Z;
  init_account_id : Z;
  init_entry_type : string;
  init_amount : Z
}.
Record t := mk {
  id : Z;
  transaction_id : Z;
  account_id : Z;
  entry_type : string;
  amount : Z
}.
Definition row (i : Z) (x : init) : t :=
  mk i (init_transaction_id x) (init_account_id x) (init_entry_type x)
     (init_amount x).
End LedgerEntry.

(** The three tables, rows in insertion order. *)
Record Db := mkDb {
  account : list Account.t;
  transaction : list Transaction.t;
  ledger_entry : list LedgerEntry.t
}.

Definition empty_db : Db := mkDb [] [] [].

(** Integer primary keys: one more than the largest key in use. *)
Definition next_id (ids : list Z) : Z := 1 + fold_right Z.max 0 ids.

Definition has_id (i : Z) (ids : list Z) : bool :=
  existsb (Z.eqb i) ids.

(* ================================================================== *)
(** ** schemas.py *)

Module AccountCreate.
Record t := mk {
  user_id : string;
  account_type : string;
  currency : string
}.
(** [Field(..., max_length=n)] on the three strings. *)
Definition valid (a : t) : bool :=
  (String.length (user_id a) <=? 50)%nat
  && (String.length (account_type a) <=? 20)%nat
  && (String.length (currency a) <=? 3)%nat.
End AccountCreate.

Module TransferCreate.
Record t := mk {
  source_account_id : Z;
  destination_account_id : Z;
  amount : Z;
  currency : string;
  description : option string
}.
(** The request body as it arrives: any key may be missing. *)
Record body := mk_body {
  body_source_account_id : option Z;
  body_destination_account_id : option Z;
  body_amount : option Z;
  body_currency : option string;
  body_description : option string
}.
(** Validation by the model: [source_account_id], [destination_account_id],
    [amount] and [currency] are required, [amount] has [gt=0], [currency]
    has [max_length=3], [description] defaults to [None]. *)
Definition validate (b : body) : option t :=
  match body_source_account_id b, body_destination_account_id b,
        body_amount b, body_currency b with
  | Some s, Some d, Some a, Some c =>
      if (0 <? a) && (String.length c <=? 3)%nat
      then Some (mk s d a c (body_description b))
      else None
  | _, _, _, _ => None
  end.
End TransferCreate.

(* ================================================================== *)
(** ** database.py: the session *)

(** Statements a session sends to the database. *)
Inductive Stmt :=
| SELECT_account_FOR_UPDATE (account_id : Z)
| SELECT_account_WHERE_user_currency (user_id currency : string)
| SELECT_account (account_id : Z)
| SELECT_ledger_entry (account_id : Z)
| SELECT_transaction (transaction_id : Z)
| INSERT_account (a : AccountCreate.t)
| INSERT_transaction (t : Transaction.init)
| INSERT_ledger_entry (e : LedgerEntry.init)
| COMMIT
| ROLLBACK.

(** [fl n st] tells whether the statement [st], sent as the [n]-th statement
    of the session, raises an unexpected database error. *)
Definition Faults := nat -> Stmt -> bool.

Definition no_faults : Faults := fun _ _ => false.

Record Session := mkSession {
  stored : Db;                       (* committed rows *)
  current : Db;                      (* rows inside the open transaction *)
  new : list LedgerEntry.init;       (* objects added, not yet flushed *)
  active : bool;                     (* a database transaction is open *)
  log : list Stmt
}.

(** [SessionLocal()] on a database holding [db]. *)
Definition SessionLocal (db : Db) : Session := mkSession db db [] false [].

Inductive Exn :=
| HTTPException (status_code : Z) (detail : string)
| DBAPIError.

Definition M (A : Type) : Type := Faults -> Session -> (Exn + A) * Session.

Definition ret {A} (a : A) : M A := fun _ s => (inr a, s).

Definition raise {A} (e : Exn) : M A := fun _ s => (inl e, s).

Definition bind {A B} (m : M A) (k : A -> M B) : M B :=
  fun fl s =>
    match m fl s with
    | (inr a, s') => k a fl s'
    | (inl e, s') => (inl e, s')
    end.

Notation "x <- m ;; k" := (bind m (fun x => k))
  (at level 61, m at next level, right associativity).
Notation "m ;;; k" := (bind m (fun _ => k))
  (at level 61, right associativity).

(** Sends one statement: it is logged, opens the transaction if none is open
    and raises when the fault plan says so. *)
Definition execute (st : Stmt) : M unit :=
  fun fl s =>
    let s' := mkSession (stored s) (current s) (new s) true (log s ++ [st]) in
    if fl (List.length (log s)) st then (inl DBAPIError, s') else (inr tt, s').

Definition get_current : M Db := fun _ s => (inr (current s), s).

Definition set_current (db : Db) : M unit :=
  fun _ s => (inr tt, mkSession (stored s) db (new s) (active s) (log s)).

(** [db.rollback()]: discards the open transaction and the pending objects;
    nothing is sent when no transaction is open. *)
Definition rollback : M unit :=
  fun _ s =>
    (inr tt,
     mkSession (stored s) (stored s) [] false
               (if active s then log s ++ [ROLLBACK] else log s)).

(** [db.query(Account).filter(Account.id == i).with_for_update().first()] *)
Definition query_account_for_update (i : Z) : M (option Account.t) :=
  execute (SELECT_account_FOR_UPDATE i) ;;;
  db <- get_current ;;
  ret (find (fun a => Account.id a =? i) (account db)).

(** [db.query(LedgerEntry).filter(LedgerEntry.account_id == i).all()] *)
Definition query_ledger_entries (i : Z) : M (list LedgerEntry.t) :=
  execute (SELECT_ledger_entry i) ;;;
  db <- get_current ;;
  ret (filter (fun e => LedgerEntry.account_id e =? i) (ledger_entry db)).

(** [db.add(t); db.flush()]: the INSERT of a transaction row, which gets its
    primary key.  The table has no CHECK constraint. *)
Definition add_flush_transaction (x : Transaction.init) : M Transaction.t :=
  execute (INSERT_transaction x) ;;;
  db <- get_current ;;
  let t := Transaction.row (next_id (map Transaction.id (transaction db))) x in
  set_current (mkDb (account db) (transaction db ++ [t]) (ledger_entry db)) ;;;
  ret t.

(** [db.add(e)] / [db.add_all(es)]: pending until the next flush. *)
Definition add_all (es : list LedgerEntry.init) : M unit :=
  fun _ s =>
    (inr tt, mkSession (stored s) (current s) (new s ++ es) (active s) (log s)).

(** The INSERT of one ledger entry: the foreign keys to [transaction.id] and
    [account.id] and [CHECK (amount > 0)] are enforced by the database. *)
Definition insert_ledger_entry (x : LedgerEntry.init) : M unit :=
  execute (INSERT_ledger_entry x) ;;;
  db <- get_current ;;
  if has_id (LedgerEntry.init_transaction_id x)
            (map Transaction.id (transaction db))
     && has_id (LedgerEntry.init_account_id x) (map Account.id (account db))
     && (0 <? LedgerEntry.init_amount x)
  then
    let e := LedgerEntry.row (next_id (map LedgerEntry.id (ledger_entry db))) x in
    set_current (mkDb (account db) (transaction db) (ledger_entry db ++ [e]))
  else raise DBAPIError.

Fixpoint insert_all (es : list LedgerEntry.init) : M unit :=
  match es with
  | [] => ret tt
  | x :: es' => insert_ledger_entry x ;;; insert_all es'
  end.

(** [db.flush()] of the pending ledger entries, in the order they were added. *)
Definition flush : M unit :=
  fun fl s =>
    insert_all (new s) fl
      (mkSession (stored s) (current s) [] (active s) (log s)).

(** [db.commit()]: flush, then COMMIT; the rows of the transaction become the
    stored ones. *)
Definition commit : M unit :=
  flush ;;;
  execute COMMIT ;;;
  fun _ s => (inr tt, mkSession (current s) (current s) [] false (log s)).

(** [db.refresh(t)] for a transaction row. *)
Definition refresh_transaction (t : Transaction.t) : M Transaction.t :=
  execute (SELECT_transaction (Transaction.id t)) ;;;
  db <- get_current ;;
  match find (fun r => Transaction.id r =? Transaction.id t) (transaction db) with
  | Some r => ret r
  | None => raise DBAPIError
  end.

(** [with db.begin(): body]: commits when the body returns, rolls back and
    lets the exception through when it raises. *)
Definition with_begin {A} (body : M A) : M A :=
  fun fl s =>
    match body fl s with
    | (inr a, s1) =>
        match commit fl s1 with
        | (inr _, s2) => (inr a, s2)
        | (inl e, s2) => (inl e, snd (rollback fl s2))
        end
    | (inl e, s1) => (inl e, snd (rollback fl s1))
    end.

(** [try: body  except ...: handler] *)
Definition try_except {A} (body : M A) (handler : Exn -> M A) : M A :=
  fun fl s =>
    match body fl s with
    | (inr a, s1) => (inr a, s1)
    | (inl e, s1) => handler e fl s1
    end.

(* ================================================================== *)
(** ** main.py: helper functions *)

(** The loop of [calculate_account_balance] over the rows of the query. *)
Definition balance_step (balance : Z) (entry : LedgerEntry.t) : Z :=
  if (LedgerEntry.entry_type entry =? "credit")%string
  then balance + LedgerEntry.amount entry
  else if (LedgerEntry.entry_type entry =? "debit")%string
       then balance - LedgerEntry.amount entry
       else balance.

Definition calculate_account_balance (account_id : Z) : M Z :=
  entries <- query_ledger_entries account_id ;;
  ret (fold_left balance_step entries 0).

(** [db.query(Account).filter(user_id == u, currency == c).first()] *)
Definition query_account_by_user_currency (u c : string)
  : M (option Account.t) :=
  execute (SELECT_account_WHERE_user_currency u c) ;;;
  db <- get_current ;;
  ret (find (fun a => (Account.user_id a =? u)%string
                      && (Account.currency a =? c)%string) (account db)).

(** The INSERT of an account row, sent by the flush that opens
    [db.commit()]: [UNIQUE (user_id, currency)] and
    [CHECK (LENGTH(currency) = 3)] are enforced by the database; [status]
    takes its default. *)
Definition add_flush_account (x : AccountCreate.t) : M Account.t :=
  execute (INSERT_account x) ;;;
  db <- get_current ;;
  if negb (existsb (fun a => (Account.user_id a =? AccountCreate.user_id x)%string
                             && (Account.currency a =? AccountCreate.currency x)%string)
                   (account db))
     && (String.length (AccountCreate.currency x) =? 3)%nat
  then
    let a := Account.mk (next_id (map Account.id (account db)))
                        (AccountCreate.user_id x) (AccountCreate.account_type x)
                        (AccountCreate.currency x) "active" in
    set_current (mkDb (account db ++ [a]) (transaction db) (ledger_entry db)) ;;;
    ret a
  else raise DBAPIError.

(** [db.refresh(a)] for an account row. *)
Definition refresh_account (a : Account.t) : M Account.t :=
  execute (SELECT_account (Account.id a)) ;;;
  db <- get_current ;;
  match find (fun r => Account.id r =? Account.id a) (account db) with
  | Some r => ret r
  | None => raise DBAPIError
  end.

(** [str(i)] for an integer. *)
Definition str_of_int (i : Z) : string :=
  DecimalString.NilZero.string_of_int (Z.to_int i).

Definition create_new_account_in_db (acc : AccountCreate.t) : M Account.t :=
  existing_account <-
    query_account_by_user_currency (AccountCreate.user_id acc)
                                   (AccountCreate.currency acc) ;;
  match existing_account with
  | Some _ =>
      raise (HTTPException 409
               ("Account for user_id '" ++ AccountCreate.user_id acc
                ++ "' with currency '" ++ AccountCreate.currency acc
                ++ "' already exists."))
  | None =>
      db_account <- add_flush_account acc ;;
      commit ;;;
      refresh_account db_account
  end.

(* ================================================================== *)
(** ** main.py: account endpoints *)

Definition create_account (acc : AccountCreate.t) : M (Account.t * Z) :=
  new_account <- create_new_account_in_db acc ;;
  ret (new_account, 0).

Definition read_account (account_id : Z) : M (Account.t * Z) :=
  execute (SELECT_account account_id) ;;;
  db <- get_current ;;
  match find (fun a => Account.id a =? account_id) (account db) with
  | None =>
      raise (HTTPException 404
               ("Account with ID " ++ str_of_int account_id ++ " not found."))
  | Some db_account =>
      current_balance <- calculate_account_balance account_id ;;
      ret (db_account, current_balance)
  end.

(* ================================================================== *)
(** ** main.py: transaction endpoints *)

(** The two [except] clauses shared by the three handlers: an
    [HTTPException] is raised again, anything else rolls back and becomes a
    500. *)
Definition except_clauses {A} (detail : string) (e : Exn) : M A :=
  match e with
  | HTTPException _ _ => raise e
  | _ =>
      rollback ;;;
      raise (HTTPException 500 detail)
  end.

Definition create_transfer (transfer : TransferCreate.t) : M Transaction.t :=
  let source_id := TransferCreate.source_account_id transfer in
  let dest_id := TransferCreate.destination_account_id transfer in
  let transfer_amount := TransferCreate.amount transfer in
  try_except
    (with_begin
       ((* 1. Lock Accounts (SELECT FOR UPDATE) *)
        source_account <- query_account_for_update source_id ;;
        dest_account <- query_account_for_update dest_id ;;
        match source_account, dest_account with
        | Some source_account, Some dest_account =>
            if negb (Account.currency source_account
                     =? TransferCreate.currency transfer)%string
               || negb (Account.currency dest_account
                        =? TransferCreate.currency transfer)%string
            then raise (HTTPException 400 "Currency mismatch.")
            else
              (* 2. Check Balance Integrity (Prevent Overdraft) *)
              current_source_balance <- calculate_account_balance source_id ;;
              if current_source_balance <? transfer_amount
              then raise (HTTPException 403
                            "Insufficient funds in source account.")
              else
                (* 3. Create Parent Transaction Record *)
                new_transaction <-
                  add_flush_transaction
                    (Transaction.mk_init "transfer" "completed" transfer_amount
                       (TransferCreate.currency transfer)
                       (TransferCreate.description transfer)) ;;
                (* 4. Create Ledger Entries (Debit and Credit) *)
                let debit_entry :=
                  LedgerEntry.mk_init (Transaction.id new_transaction)
                                      source_id "debit" transfer_amount in
                let credit_entry :=
                  LedgerEntry.mk_init (Transaction.id new_transaction)
                                      dest_id "credit" transfer_amount in
                add_all [debit_entry; credit_entry] ;;;
                refresh_transaction new_transaction
        | _, _ =>
            raise (HTTPException 404 "Source or Destination account not found.")
        end))
    (except_clauses "An unexpected error occurred during the transfer.").

Definition create_deposit (deposit : TransferCreate.t) : M Transaction.t :=
  let dest_id := TransferCreate.destination_account_id deposit in
  let deposit_amount := TransferCreate.amount deposit in
  try_except
    (with_begin
       ((* 1. Lock Destination Account *)
        dest_account <- query_account_for_update dest_id ;;
        match dest_account with
        | None => raise (HTTPException 404 "Destination account not found.")
        | Some _ =>
            (* 2. Create Parent Transaction *)
            new_transaction <-
              add_flush_transaction
                (Transaction.mk_init "deposit" "completed" deposit_amount
                   (TransferCreate.currency deposit)
                   (TransferCreate.description deposit)) ;;
            (* 3. Create Ledger Entry (Credit Only) *)
            let credit_entry :=
              LedgerEntry.mk_init (Transaction.id new_transaction)
                                  dest_id "credit" deposit_amount in
            add_all [credit_entry] ;;;
            refresh_transaction new_transaction
        end))
    (except_clauses "An unexpected error occurred.").

Definition create_withdrawal (withdrawal : TransferCreate.t) : M Transaction.t :=
  let source_id := TransferCreate.source_account_id withdrawal in
  let withdrawal_amount := TransferCreate.amount withdrawal in
  try_except
    (with_begin
       ((* 1. Lock Source Account *)
        source_account <- query_account_for_update source_id ;;
        match source_account with
        | None => raise (HTTPException 404 "Source account not found.")
        | Some _ =>
            (* 2. Check Balance Integrity *)
            current_source_balance <- calculate_account_balance source_id ;;
            if current_source_balance <? withdrawal_amount
            then raise (HTTPException 403 "Insufficient funds for withdrawal.")
            else
              (* 3. Create Parent Transaction *)
              new_transaction <-
                add_flush_transaction
                  (Transaction.mk_init "withdrawal" "completed"
                     withdrawal_amount
                     (TransferCreate.currency withdrawal)
                     (TransferCreate.description withdrawal)) ;;
              (* 4. Create Ledger Entry (Debit Only) *)
              let debit_entry :=
                LedgerEntry.mk_init (Transaction.id new_transaction)
                                    source_id "debit" withdrawal_amount in
              add_all [debit_entry] ;;;
              refresh_transaction new_transaction
        end))
    (except_clauses "An unexpected error occurred.").

(* ================================================================== *)
(** ** The application: one request against the database *)

Inductive Payload :=
| AccountResponse (a : Account.t) (current_balance : Z)
| TransactionResponse (t : Transaction.t).

Inductive Response :=
| Success (p : Payload)
| Failed (status_code : Z) (detail : string).

(** What a request leaves behind: the response, the committed database and
    the statements that were sent. *)
Definition Outcome : Type := Response * Db * list Stmt.

Definition response_of {A} (wrap : A -> Payload) (r : Exn + A) : Response :=
  match r with
  | inr a => Success (wrap a)
  | inl (HTTPException code detail) => Failed code detail
  | inl DBAPIError => Failed 500 "Internal Server Error"
  end.

(** [Depends(get_db)]: a fresh session for the handler, closed in the
    [finally] clause, which drops whatever was not committed. *)
Definition with_get_db {A} (wrap : A -> Payload) (handler : M A)
  (fl : Faults) (db : Db) : Outcome :=
  let (r, s) := handler fl (SessionLocal db) in
  let s' := snd (rollback fl s) in
  (response_of wrap r, stored s', log s').

(** A body that does not validate is answered 422 before the handler and its
    dependencies run. *)
Definition with_body (handler : TransferCreate.t -> M Transaction.t)
  (fl : Faults) (b : TransferCreate.body) (db : Db) : Outcome :=
  match TransferCreate.validate b with
  | None => (Failed 422 "Unprocessable Entity", db, [])
  | Some req => with_get_db TransactionResponse (handler req) fl db
  end.

Definition post_transfers := with_body create_transfer.
Definition post_deposits := with_body create_deposit.
Definition post_withdrawals := with_body create_withdrawal.

Definition post_accounts (fl : Faults) (a : AccountCreate.t) (db : Db)
  : Outcome :=
  if AccountCreate.valid a
  then with_get_db (fun p => AccountResponse (fst p) (snd p))
                   (create_account a) fl db
  else (Failed 422 "Unprocessable Entity", db, []).

Definition get_account (fl : Faults) (account_id : Z) (db : Db) : Outcome :=
  with_get_db (fun p => AccountResponse (fst p) (snd p))
              (read_account account_id) fl db.

Inductive Request :=
| POST_accounts (a : AccountCreate.t)
| GET_accounts (account_id : Z)
| POST_transfers (b : TransferCreate.body)
| POST_deposits (b : TransferCreate.body)
| POST_withdrawals (b : TransferCreate.body).

Definition serve (fl : Faults) (r : Request) (db : Db) : Outcome :=
  match r with
  | POST_accounts a => post_accounts fl a db
  | GET_accounts i => get_account fl i db
  | POST_transfers b => post_transfers fl b db
  | POST_deposits b => post_deposits fl b db
  | POST_withdrawals b => post_withdrawals fl b db
  end.

Definition db_of (o : Outcome) : Db := snd (fst o).
Definition response (o : Outcome) : Response := fst (fst o).
Definition statements (o : Outcome) : list Stmt := snd o.

(** Requests served one after the other, each with its own fault plan. *)
Fixpoint run (reqs : list (Faults * Request)) (db : Db) : Db :=
  match reqs with
  | [] => db
  | (fl, r) :: reqs' => run reqs' (db_of (serve fl r db))
  end.

(** The databases after each request of the sequence, the first one first. *)
Fixpoint history (reqs : list (Faults * Request)) (db : Db) : list Db :=
  match reqs with
  | [] => []
  | (fl, r) :: reqs' =>
      let db' := db_of (serve fl r db) in db' :: history reqs' db'
  end.

(* ================================================================== *)
(** ** Vocabulary of the specification *)

Inductive Failure :=
| NotFound | CurrencyMismatch | InsufficientFunds | DuplicateAccount
| Invalid | Internal.

(** The failure kind a status code stands for. *)
Definition failure_of_status (code : Z) : Failure :=
  if code =? 404 then NotFound
  else if code =? 400 then CurrencyMismatch
  else if code =? 403 then InsufficientFunds
  else if code =? 409 then DuplicateAccount
  else if code =? 422 then Invalid
  else Internal.

Definition failure (r : Response) : option Failure :=
  match r with
  | Success _ => None
  | Failed code _ => Some (failure_of_status code)
  end.

Definition succeeded (r : Response) : option Transaction.t :=
  match r with
  | Success (TransactionResponse t) => Some t
  | _ => None
  end.

Definition sum (l : list Z) : Z := fold_right Z.add 0 l.

Definition entries_of (db : Db) (account_id : Z) (entry_type : string)
  : list LedgerEntry.t :=
  filter (fun e => (LedgerEntry.account_id e =? account_id)
                   && (LedgerEntry.entry_type e =? entry_type)%string)
         (ledger_entry db).

(** The derived balance in the words of the specification: the sum of the
    amounts of the credit entries of the account minus the sum of the amounts
    of its debit entries. *)
Definition derived_balance (db : Db) (account_id : Z) : Z :=
  sum (map LedgerEntry.amount (entries_of db account_id "credit"))
  - sum (map LedgerEntry.amount (entries_of db account_id "debit")).

(** The entries of one transaction. *)
Definition entries_of_transaction (db : Db) (transaction_id : Z)
  : list LedgerEntry.t :=
  filter (fun e => LedgerEntry.transaction_id e =? transaction_id)
         (ledger_entry db).

Definition amounts_of (entry_type : string) (es : list LedgerEntry.t) : list Z :=
  map LedgerEntry.amount
      (filter (fun e => (LedgerEntry.entry_type e =? entry_type)%string) es).

Definition find_account (db : Db) (i : Z) : option Account.t :=
  find (fun a => Account.id a =? i) (account db).

(** The locks a request took, in the order it took them. *)
Fixpoint locks (l : list Stmt) : list Z :=
  match l with
  | [] => []
  | SELECT_account_FOR_UPDATE i :: l' => i :: locks l'
  | _ :: l' => locks l'
  end.

Definition is_write (st : Stmt) : bool :=
  match st with
  | INSERT_account _ | INSERT_transaction _ | INSERT_ledger_entry _ => true
  | _ => false
  end.

Definition is_balance_read (st : Stmt) : bool :=
  match st with
  | SELECT_ledger_entry _ => true
  | _ => false
  end.


Definition is_select (st : Stmt) : bool :=
  match st with
  | SELECT_account_FOR_UPDATE _ | SELECT_account_WHERE_user_currency _ _
  | SELECT_account _ | SELECT_ledger_entry _ | SELECT_transaction _ => true
  | _ => false
  end.

(** No statement raises an unexpected error. *)
Definition fault_free (fl : Faults) : Prop := forall n st, fl n st = false.

(** No query raises an unexpected error. *)
Definition selects_ok (fl : Faults) : Prop :=
  forall n st, is_select st = true -> fl n st = false.

Fixpoint ascending (l : list Z) : bool :=
  match l with
  | x :: (y :: _) as l' => (x <=? y) && ascending l'
  | _ => true
  end.

(** The three money movements among the requests. *)
Definition ledger_operation (r : Request) : bool :=
  match r with
  | POST_transfers _ | POST_deposits _ | POST_withdrawals _ => true
  | _ => false
  end.

(** No account is overdrawn. *)
Definition no_overdraft (db : Db) : Prop :=
  forall i, 0 <= derived_balance db i.

(** Every persisted transaction has a positive amount. *)
Definition positive_transactions (db : Db) : Prop :=
  Forall (fun t => 0 < Transaction.amount t) (transaction db).

(** The foreign key of [ledger_entry.transaction_id]. *)
Definition fk_transaction (db : Db) : Prop :=
  Forall (fun e => In (LedgerEntry.transaction_id e)
                      (map Transaction.id (transaction db)))
         (ledger_entry db).

(** Request bodies that differ in one key only. *)
Definition set_source_account_id (v : option Z) (b : TransferCreate.body)
  : TransferCreate.body :=
  TransferCreate.mk_body v (TransferCreate.body_destination_account_id b)
    (TransferCreate.body_amount b) (TransferCreate.body_currency b)
    (TransferCreate.body_description b).

Definition set_destination_account_id (v : option Z) (b : TransferCreate.body)
  : TransferCreate.body :=
  TransferCreate.mk_body (TransferCreate.body_source_account_id b) v
    (TransferCreate.body_amount b) (TransferCreate.body_currency b)
    (TransferCreate.body_description b).

(* ================================================================== *)
(** ** Auxiliary definitions for the proofs *)

(** The session once a statement has been sent. *)
Definition sent (st : Stmt) (s : Session) : Session :=
  mkSession (stored s) (current s) (new s) true (log s ++ [st]).

(** A computation that never commits. *)
Definition keeps_stored {A} (m : M A) : Prop :=
  forall fl s, stored (snd (m fl s)) = stored s.

(** The rows a completed operation adds. *)
Definition new_transaction_row (db : Db) (type : string)
  (req : TransferCreate.t) : Transaction.t :=
  Transaction.mk (next_id (map Transaction.id (transaction db))) type
    "completed" (TransferCreate.amount req) (TransferCreate.currency req)
    (TransferCreate.description req).

Definition ledger_row (db : Db) (k : Z) (t : Transaction.t) (account_id : Z)
  (entry_type : string) (amount : Z) : LedgerEntry.t :=
  LedgerEntry.mk (next_id (map LedgerEntry.id (ledger_entry db)) + k)
                 (Transaction.id t) account_id entry_type amount.

Definition after_transfer (db : Db) (req : TransferCreate.t) : Db :=
  let t := new_transaction_row db "transfer" req in
  mkDb (account db) (transaction db ++ [t])
       (ledger_entry db
        ++ [ledger_row db 0 t (TransferCreate.source_account_id req) "debit"
              (TransferCreate.amount req);
            ledger_row db 1 t (TransferCreate.destination_account_id req)
              "credit" (TransferCreate.amount req)]).

Definition after_deposit (db : Db) (req : TransferCreate.t) : Db :=
  let t := new_transaction_row db "deposit" req in
  mkDb (account db) (transaction db ++ [t])
       (ledger_entry db
        ++ [ledger_row db 0 t (TransferCreate.destination_account_id req)
              "credit" (TransferCreate.amount req)]).

Definition after_withdrawal (db : Db) (req : TransferCreate.t) : Db :=
  let t := new_transaction_row db "withdrawal" req in
  mkDb (account db) (transaction db ++ [t])
       (ledger_entry db
        ++ [ledger_row db 0 t (TransferCreate.source_account_id req) "debit"
              (TransferCreate.amount req)]).

(** Sample data for the examples. *)
Definition usd_account (i : Z) (u : string) : Account.t :=
  Account.mk i u "checking" "USD" "active".

Definition sample_body (s d a : Z) (c : string) : TransferCreate.body :=
  TransferCreate.mk_body (Some s) (Some d) (Some a) (Some c) None.

(** Two USD accounts; account 1 holds 100.0000 from one deposit. *)
Definition sample_db : Db :=
  mkDb [usd_account 1 "U1"; usd_account 2 "U2"]
       [Transaction.mk 1 "deposit" "completed" 1000000 "USD" None]
       [LedgerEntry.mk 1 1 1 "credit" 1000000].

(** The plan in which exactly the statement number [k] raises. *)
Definition fault_at (k : nat) : Faults := fun n _ => Nat.eqb n k.

(** Open two USD accounts, deposit 100.0000 on the first, try to withdraw
    1000.0000 from it, transfer 40.0000 to the second, try to transfer
    70.0000 more. *)
Definition sample_requests : list (Faults * Request) :=
  [(no_faults, POST_accounts (AccountCreate.mk "U1" "checking" "USD"));
   (no_faults, POST_accounts (AccountCreate.mk "U2" "checking" "USD"));
   (no_faults, POST_deposits (sample_body 0 1 1000000 "USD"));
   (no_faults, POST_withdrawals (sample_body 1 0 10000000 "USD"));
   (no_faults, POST_transfers (sample_body 1 2 400000 "USD"));
   (no_faults, POST_transfers (sample_body 1 2 700000 "USD"))].

(* ================================================================== *)
(** ** Vocabulary for the account endpoints and the whole ledger *)

(** The filter of [create_new_account_in_db]: same user, same currency. *)
Definition same_owner (u c : string) (a : Account.t) : bool :=
  (Account.user_id a =? u)%string && (Account.currency a =? c)%string.

(** The row a created account gets. *)
Definition new_account_row (db : Db) (x : AccountCreate.t) : Account.t :=
  Account.mk (next_id (map Account.id (account db)))
             (AccountCreate.user_id x) (AccountCreate.account_type x)
             (AccountCreate.currency x) "active".

Definition owner (a : Account.t) : string * string :=
  (Account.user_id a, Account.currency a).

(** The constraints of the [account] table: distinct primary keys, one
    account per user and currency, a currency of three characters. *)
Definition accounts_wf (db : Db) : Prop :=
  NoDup (map Account.id (account db))
  /\ NoDup (map owner (account db))
  /\ Forall (fun a => String.length (Account.currency a) = 3%nat
                      /\ Account.status a = "active")
            (account db).

(** The foreign key of [ledger_entry.account_id]. *)
Definition fk_account (db : Db) : Prop :=
  Forall (fun e => In (LedgerEntry.account_id e) (map Account.id (account db)))
         (ledger_entry db).

(** The constraints of the [ledger_entry] table. *)
Definition entries_wf (db : Db) : Prop :=
  NoDup (map LedgerEntry.id (ledger_entry db))
  /\ fk_transaction db
  /\ fk_account db
  /\ Forall (fun e => 0 < LedgerEntry.amount e
                      /\ (LedgerEntry.entry_type e = "debit"
                          \/ LedgerEntry.entry_type e = "credit"))
            (ledger_entry db).

(** The entries a transaction of each type owns. *)
Definition entries_match (t : Transaction.t) (es : list LedgerEntry.t) : Prop :=
  (Transaction.type t = "transfer"
   /\ exists d c,
       es = [d; c]
       /\ LedgerEntry.entry_type d = "debit"
       /\ LedgerEntry.entry_type c = "credit"
       /\ LedgerEntry.amount d = Transaction.amount t
       /\ LedgerEntry.amount c = Transaction.amount t)
  \/ (Transaction.type t = "deposit"
      /\ exists c,
          es = [c]
          /\ LedgerEntry.entry_type c = "credit"
          /\ LedgerEntry.amount c = Transaction.amount t)
  \/ (Transaction.type t = "withdrawal"
      /\ exists d,
          es = [d]
          /\ LedgerEntry.entry_type d = "debit"
          /\ LedgerEntry.amount d = Transaction.amount t).

(** Every stored transaction is completed, has a key of its own and owns the
    entries of its type. *)
Definition transactions_wf (db : Db) : Prop :=
  NoDup (map Transaction.id (transaction db))
  /\ fk_transaction db
  /\ Forall (fun t => Transaction.status t = "completed"
                      /\ entries_match t
                           (entries_of_transaction db (Transaction.id t)))
            (transaction db).

(** Money in the ledger: all credits minus all debits. *)
Definition total_balance (db : Db) : Z :=
  sum (amounts_of "credit" (ledger_entry db))
  - sum (amounts_of "debit" (ledger_entry db)).

(** The amounts of the transactions of one type. *)
Definition total_of_type (type : string) (db : Db) : Z :=
  sum (map Transaction.amount
         (filter (fun t => (Transaction.type t =? type)%string)
                 (transaction db))).

(** Some statement of the log raised under the plan; [n] is the position of
    the first statement of [l].  A ROLLBACK is not subject to the plan. *)
Fixpoint some_raised (fl : Faults) (n : nat) (l : list Stmt) : bool :=
  match l with
  | [] => false
  | ROLLBACK :: l' => some_raised fl (S n) l'
  | st :: l' => fl n st || some_raised fl (S n) l'
  end.

(** Every read of the entries of an account and every INSERT of an entry on
    an account comes after a lock on that account; [locked] holds the
    accounts locked so far. *)
Fixpoint under_lock (locked : list Z) (l : list Stmt) : bool :=
  match l with
  | [] => true
  | SELECT_account_FOR_UPDATE i :: l' => under_lock (i :: locked) l'
  | SELECT_ledger_entry i :: l' => has_id i locked && under_lock locked l'
  | INSERT_ledger_entry e :: l' =>
      has_id (LedgerEntry.init_account_id e) locked && under_lock locked l'
  | _ :: l' => under_lock locked l'
  end.

(** The second table extends the first: rows are only ever appended. *)
Definition extends {A} (l l' : list A) : Prop := exists k, l' = l ++ k.

(** The derived balances of all the accounts, added up. *)
Definition sum_of_balances (db : Db) : Z :=
  sum (map (fun a => derived_balance db (Account.id a)) (account db)).

(** The balances of the accounts add up to what was deposited minus what
    was withdrawn. *)
Definition money_accounted (db : Db) : Prop :=
  sum_of_balances db
  = total_of_type "deposit" db - total_of_type "withdrawal" db.

(* ================================================================== *)
(** * The ledger operations on the database

    A finer model of the five endpoints, for the properties that depend on
    what the columns, the sequences, the floats and the session do.  It
    shares the tables and the vocabulary of the model above and differs from
    it in this:
    - the amount of a request is any decimal number above zero, here a
      rational: [Decimal(str(amount))] is not confined to four decimals
      (the values [inf] and [nan] of a float are not represented);
    - a [Numeric(19, 4)] column rounds what it is given to four decimals,
      half away from zero, and refuses fifteen digits or more before the
      point; [CHECK (amount > 0)] sees the rounded value;
    - primary keys are what the sequences deliver, and the database refuses
      a key that is in use;
    - [max_length], [VARCHAR(n)] and [LENGTH] count characters, not bytes;
    - the handlers set [amount] to [float(amount)] before they return, which
      the commit flushes as an UPDATE when the float is not the decimal;
    - the pending ledger entries go out in one INSERT;
    - the commit expires the object the handler returns, so that building
      the response reads the row again, in a new database transaction that
      the close of the session rolls back;
    - the balance of an account is answered as a float. *)

Module Pg.

(** A byte that continues a UTF-8 character. *)
Definition is_continuation (c : Ascii.ascii) : bool :=
  let n := Ascii.nat_of_ascii c in (128 <=? n)%nat && (n <? 192)%nat.

(** [len(s)] on the string whose UTF-8 bytes are [s]. *)
Fixpoint characters (s : string) : nat :=
  match s with
  | EmptyString => 0%nat
  | String c s' =>
      ((if is_continuation c then 0 else 1) + characters s')%nat
  end.

(** The number of 1/10000 nearest to [q], ties away from zero. *)
Definition quantize (q : Q) : Z :=
  let n := Qnum q * 10000 in
  let d := Zpos (Qden q) in
  Z.sgn n * ((2 * Z.abs n + d) / (2 * d)).

(** What a [Numeric(19, 4)] column stores for [q], if it takes it. *)
Definition numeric_19_4 (q : Q) : option Z :=
  let z := quantize q in
  if Z.abs z <? 10 ^ 19 then Some z else None.

(** [balance < amount] for a balance in 1/10000 and the decimal [amount]. *)
Definition decimal_lt (balance : Z) (amount : Q) : bool :=
  balance * Zpos (Qden amount) <? Qnum amount * 10000.

(** The decimal a stored amount stands for. *)
Definition decimal_of (z : Z) : Q := z # 10000.

Module AccountCreate.
Record t := mk {
  user_id : string;
  account_type : string;
  currency : string
}.
Definition valid (a : t) : bool :=
  (characters (user_id a) <=? 50)%nat
  && (characters (account_type a) <=? 20)%nat
  && (characters (currency a) <=? 3)%nat.
End AccountCreate.

Module TransferCreate.
Record t := mk {
  source_account_id : Z;
  destination_account_id : Z;
  amount : Q;
  currency : string;
  description : option string
}.
Record body := mk_body {
  body_source_account_id : option Z;
  body_destination_account_id : option Z;
  body_amount : option Q;
  body_currency : option string;
  body_description : option string
}.
Definition validate (b : body) : option t :=
  match body_source_account_id b, body_destination_account_id b,
        body_amount b, body_currency b with
  | Some s, Some d, Some a, Some c =>
      if (0 <? Qnum a) && (characters c <=? 3)%nat
      then Some (mk s d a c (body_description b))
      else None
  | _, _, _, _ => None
  end.
End TransferCreate.

(** Keyword arguments of [models.LedgerEntry(...)]. *)
Record entry := mk_entry {
  entry_transaction_id : Z;
  entry_account_id : Z;
  entry_entry_type : string;
  entry_amount : Q
}.

Inductive Stmt :=
| SELECT_account_FOR_UPDATE (account_id : Z)
| SELECT_account_WHERE_user_currency (user_id currency : string)
| SELECT_account (account_id : Z)
| SELECT_ledger_entry (account_id : Z)
| SELECT_transaction (transaction_id : Z)
| INSERT_account (a : AccountCreate.t)
| INSERT_transaction (type status : string) (amount : Q) (currency : string)
    (description : option string)
| UPDATE_transaction_amount (transaction_id : Z) (amount : Z)
| INSERT_ledger_entry (rows : list entry)
| COMMIT
| ROLLBACK.

(** What the handlers do not decide: which statements raise an unexpected
    error, the keys the three sequences deliver (to the statement number
    [n], and to its row [i] for the ledger entries), whether
    [float(z / 10000)] differs from the decimal, what the column holds once
    that float has been stored in it, if it takes it, and the number the
    float is. *)
Record World := mkWorld {
  raises : nat -> Stmt -> bool;
  account_id_seq : nat -> Z;
  transaction_id_seq : nat -> Z;
  ledger_entry_id_seq : nat -> nat -> Z;
  float_differs : Z -> bool;
  float_numeric : Z -> option Z;
  float : Z -> Q
}.

Record Session := mkSession {
  stored : Db;                 (* committed rows *)
  current : Db;                (* rows inside the open transaction *)
  new : list entry;            (* ledger entries added, not yet flushed *)
  dirty : list (Z * Z);        (* transactions whose amount was set to a
                                  float: the key and the decimal it was *)
  active : bool;
  log : list Stmt
}.

Definition SessionLocal (db : Db) : Session := mkSession db db [] [] false [].

Definition M (A : Type) : Type := World -> Session -> (Exn + A) * Session.

Definition ret {A} (a : A) : M A := fun _ s => (inr a, s).

Definition raise {A} (e : Exn) : M A := fun _ s => (inl e, s).

Definition bind {A B} (m : M A) (k : A -> M B) : M B :=
  fun w s =>
    match m w s with
    | (inr a, s') => k a w s'
    | (inl e, s') => (inl e, s')
    end.

Notation "x <- m ;; k" := (bind m (fun x => k))
  (at level 61, m at next level, right associativity).
Notation "m ;;; k" := (bind m (fun _ => k))
  (at level 61, right associativity).

Definition ask : M World := fun w s => (inr w, s).

(** The number the next statement will have. *)
Definition position : M nat := fun _ s => (inr (List.length (log s)), s).

Definition execute (st : Stmt) : M unit :=
  fun w s =>
    let s' := mkSession (stored s) (current s) (new s) (dirty s) true
                        (log s ++ [st]) in
    if raises w (List.length (log s)) st
    then (inl DBAPIError, s') else (inr tt, s').

Definition get_current : M Db := fun _ s => (inr (current s), s).

Definition set_current (db : Db) : M unit :=
  fun _ s =>
    (inr tt, mkSession (stored s) db (new s) (dirty s) (active s) (log s)).

(** [db.rollback()], also what [db.close()] does to an open transaction. *)
Definition rollback : M unit :=
  fun _ s =>
    (inr tt,
     mkSession (stored s) (stored s) [] [] false
               (if active s then log s ++ [ROLLBACK] else log s)).

Definition query_account_for_update (i : Z) : M (option Account.t) :=
  execute (SELECT_account_FOR_UPDATE i) ;;;
  db <- get_current ;;
  ret (find_account db i).

Definition query_ledger_entries (i : Z) : M (list LedgerEntry.t) :=
  execute (SELECT_ledger_entry i) ;;;
  db <- get_current ;;
  ret (filter (fun e => LedgerEntry.account_id e =? i) (ledger_entry db)).

Definition calculate_account_balance (account_id : Z) : M Z :=
  entries <- query_ledger_entries account_id ;;
  ret (fold_left balance_step entries 0).

(** [db.add(t); db.flush()]: the INSERT of the transaction row.  The key
    comes from the sequence and must be free, the amount must fit the
    column, which rounds it, and the currency must fit [VARCHAR(3)].  The
    result is the key the object has from then on. *)
Definition add_flush_transaction (type status : string) (amount : Q)
  (currency : string) (description : option string) : M Z :=
  n <- position ;;
  execute (INSERT_transaction type status amount currency description) ;;;
  w <- ask ;;
  db <- get_current ;;
  let k := transaction_id_seq w n in
  match numeric_19_4 amount with
  | Some z =>
      if negb (has_id k (map Transaction.id (transaction db)))
         && (characters currency <=? 3)%nat
      then
        set_current
          (mkDb (account db)
                (transaction db
                 ++ [Transaction.mk k type status z currency description])
                (ledger_entry db)) ;;;
        ret k
      else raise DBAPIError
  | None => raise DBAPIError
  end.

Definition add_all (es : list entry) : M unit :=
  fun _ s =>
    (inr tt,
     mkSession (stored s) (current s) (new s ++ es) (dirty s) (active s)
               (log s)).

(** [db.refresh(t)], and the load of an expired object: the row of the
    key, as the database has it. *)
Definition refresh_transaction (k : Z) : M Transaction.t :=
  execute (SELECT_transaction k) ;;;
  db <- get_current ;;
  match find (fun r => Transaction.id r =? k) (transaction db) with
  | Some r => ret r
  | None => raise DBAPIError
  end.

(** [setattr(t, 'amount', float(t.amount))] *)
Definition set_amount_float (t : Transaction.t) : M unit :=
  fun _ s =>
    (inr tt,
     mkSession (stored s) (current s) (new s)
               (dirty s ++ [(Transaction.id t, Transaction.amount t)])
               (active s) (log s)).

Definition with_amount (k z : Z) (r : Transaction.t) : Transaction.t :=
  if Transaction.id r =? k
  then Transaction.mk (Transaction.id r) (Transaction.type r)
                      (Transaction.status r) z (Transaction.currency r)
                      (Transaction.description r)
  else r.

(** The UPDATE of one transaction whose amount was set to a float: sent
    only when the float is not the decimal that was loaded. *)
Definition update_amount (kz : Z * Z) : M unit :=
  w <- ask ;;
  if float_differs w (snd kz)
  then
    execute (UPDATE_transaction_amount (fst kz) (snd kz)) ;;;
    db <- get_current ;;
    match float_numeric w (snd kz) with
    | Some z' =>
        set_current
          (mkDb (account db)
                (map (with_amount (fst kz) z') (transaction db))
                (ledger_entry db))
    | None => raise DBAPIError
    end
  else ret tt.

Fixpoint update_all (l : list (Z * Z)) : M unit :=
  match l with
  | [] => ret tt
  | kz :: l' => update_amount kz ;;; update_all l'
  end.

(** The rows of one INSERT of ledger entries, if the database takes them
    all: each amount fits the column and is positive once rounded, each
    transaction and each account is there, each key is free. *)
Fixpoint ledger_rows (key : nat -> Z) (db : Db) (ids : list Z) (i : nat)
  (es : list entry) : option (list LedgerEntry.t) :=
  match es with
  | [] => Some []
  | e :: es' =>
      match numeric_19_4 (entry_amount e) with
      | Some z =>
          if (0 <? z)
             && has_id (entry_transaction_id e)
                       (map Transaction.id (transaction db))
             && has_id (entry_account_id e) (map Account.id (account db))
             && negb (has_id (key i) ids)
          then
            match ledger_rows key db (key i :: ids) (S i) es' with
            | Some rows =>
                Some (LedgerEntry.mk (key i) (entry_transaction_id e)
                                     (entry_account_id e) (entry_entry_type e)
                                     z :: rows)
            | None => None
            end
          else None
      | None => None
      end
  end.

Definition insert_ledger_entries (es : list entry) : M unit :=
  n <- position ;;
  execute (INSERT_ledger_entry es) ;;;
  w <- ask ;;
  db <- get_current ;;
  match ledger_rows (ledger_entry_id_seq w n) db
                    (map LedgerEntry.id (ledger_entry db)) 0 es with
  | Some rows =>
      set_current (mkDb (account db) (transaction db)
                        (ledger_entry db ++ rows))
  | None => raise DBAPIError
  end.

(** [db.flush()]: the transaction rows that changed first, then the ledger
    entries that were added. *)
Definition flush : M unit :=
  fun w s =>
    match update_all (dirty s) w
            (mkSession (stored s) (current s) (new s) [] (active s) (log s))
    with
    | (inr _, s1) =>
        match new s1 with
        | [] => (inr tt, s1)
        | es =>
            insert_ledger_entries es w
              (mkSession (stored s1) (current s1) [] (dirty s1) (active s1)
                         (log s1))
        end
    | (inl e, s1) => (inl e, s1)
    end.

Definition commit : M unit :=
  flush ;;;
  execute COMMIT ;;;
  fun _ s => (inr tt, mkSession (current s) (current s) [] [] false (log s)).

Definition with_begin {A} (body : M A) : M A :=
  fun w s =>
    match body w s with
    | (inr a, s1) =>
        match commit w s1 with
        | (inr _, s2) => (inr a, s2)
        | (inl e, s2) => (inl e, snd (rollback w s2))
        end
    | (inl e, s1) => (inl e, snd (rollback w s1))
    end.

Definition try_except {A} (body : M A) (handler : Exn -> M A) : M A :=
  fun w s =>
    match body w s with
    | (inr a, s1) => (inr a, s1)
    | (inl e, s1) => handler e w s1
    end.

Definition except_clauses {A} (detail : string) (e : Exn) : M A :=
  match e with
  | HTTPException _ _ => raise e
  | _ =>
      rollback ;;;
      raise (HTTPException 500 detail)
  end.

Definition query_account_by_user_currency (u c : string)
  : M (option Account.t) :=
  execute (SELECT_account_WHERE_user_currency u c) ;;;
  db <- get_current ;;
  ret (find (fun a => (Account.user_id a =? u)%string
                      && (Account.currency a =? c)%string) (account db)).

(** The INSERT of an account row, sent by the flush that opens
    [db.commit()].  The key comes from the sequence and must be free;
    [UNIQUE (user_id, currency)], [CHECK (LENGTH(currency) = 3)] and the
    sizes of the columns are enforced by the database; [status] takes its
    default.  The result is the key the object has from then on. *)
Definition add_flush_account (x : AccountCreate.t) : M Z :=
  n <- position ;;
  execute (INSERT_account x) ;;;
  w <- ask ;;
  db <- get_current ;;
  let k := account_id_seq w n in
  if negb (has_id k (map Account.id (account db)))
     && negb (existsb
                (fun a =>
                   (Account.user_id a =? AccountCreate.user_id x)%string
                   && (Account.currency a =? AccountCreate.currency x)%string)
                (account db))
     && (characters (AccountCreate.currency x) =? 3)%nat
     && (characters (AccountCreate.user_id x) <=? 50)%nat
     && (characters (AccountCreate.account_type x) <=? 20)%nat
  then
    set_current
      (mkDb (account db
             ++ [Account.mk k (AccountCreate.user_id x)
                            (AccountCreate.account_type x)
                            (AccountCreate.currency x) "active"])
            (transaction db) (ledger_entry db)) ;;;
    ret k
  else raise DBAPIError.

(** [db.refresh(a)] for the account of the key. *)
Definition refresh_account (k : Z) : M Account.t :=
  execute (SELECT_account k) ;;;
  db <- get_current ;;
  match find (fun r => Account.id r =? k) (account db) with
  | Some r => ret r
  | None => raise DBAPIError
  end.

Definition create_new_account_in_db (acc : AccountCreate.t) : M Account.t :=
  existing_account <-
    query_account_by_user_currency (AccountCreate.user_id acc)
                                   (AccountCreate.currency acc) ;;
  match existing_account with
  | Some _ =>
      raise (HTTPException 409
               ("Account for user_id '" ++ AccountCreate.user_id acc
                ++ "' with currency '" ++ AccountCreate.currency acc
                ++ "' already exists."))
  | None =>
      db_account <- add_flush_account acc ;;
      commit ;;;
      refresh_account db_account
  end.

(** The account and its [current_balance] attribute, a float. *)
Definition create_account (acc : AccountCreate.t) : M (Account.t * Q) :=
  new_account <- create_new_account_in_db acc ;;
  ret (new_account, 0%Q).

Definition read_account (account_id : Z) : M (Account.t * Q) :=
  execute (SELECT_account account_id) ;;;
  db <- get_current ;;
  match find (fun a => Account.id a =? account_id) (account db) with
  | None =>
      raise (HTTPException 404
               ("Account with ID " ++ str_of_int account_id ++ " not found."))
  | Some db_account =>
      current_balance <- calculate_account_balance account_id ;;
      w <- ask ;;
      ret (db_account, float w current_balance)
  end.

Definition create_transfer (transfer : TransferCreate.t) : M Transaction.t :=
  let source_id := TransferCreate.source_account_id transfer in
  let dest_id := TransferCreate.destination_account_id transfer in
  let transfer_amount := TransferCreate.amount transfer in
  try_except
    (with_begin
       (source_account <- query_account_for_update source_id ;;
        dest_account <- query_account_for_update dest_id ;;
        match source_account, dest_account with
        | Some source_account, Some dest_account =>
            if negb (Account.currency source_account
                     =? TransferCreate.currency transfer)%string
               || negb (Account.currency dest_account
                        =? TransferCreate.currency transfer)%string
            then raise (HTTPException 400 "Currency mismatch.")
            else
              current_source_balance <- calculate_account_balance source_id ;;
              if decimal_lt current_source_balance transfer_amount
              then raise (HTTPException 403
                            "Insufficient funds in source account.")
              else
                new_transaction_id <-
                  add_flush_transaction "transfer" "completed" transfer_amount
                    (TransferCreate.currency transfer)
                    (TransferCreate.description transfer) ;;
                let debit_entry :=
                  mk_entry new_transaction_id source_id "debit"
                           transfer_amount in
                let credit_entry :=
                  mk_entry new_transaction_id dest_id "credit"
                           transfer_amount in
                add_all [debit_entry; credit_entry] ;;;
                new_transaction <- refresh_transaction new_transaction_id ;;
                set_amount_float new_transaction ;;;
                ret new_transaction
        | _, _ =>
            raise (HTTPException 404 "Source or Destination account not found.")
        end))
    (except_clauses "An unexpected error occurred during the transfer.").

Definition create_deposit (deposit : TransferCreate.t) : M Transaction.t :=
  let dest_id := TransferCreate.destination_account_id deposit in
  let deposit_amount := TransferCreate.amount deposit in
  try_except
    (with_begin
       (dest_account <- query_account_for_update dest_id ;;
        match dest_account with
        | None => raise (HTTPException 404 "Destination account not found.")
        | Some _ =>
            new_transaction_id <-
              add_flush_transaction "deposit" "completed" deposit_amount
                (TransferCreate.currency deposit)
                (TransferCreate.description deposit) ;;
            let credit_entry :=
              mk_entry new_transaction_id dest_id "credit" deposit_amount in
            add_all [credit_entry] ;;;
            new_transaction <- refresh_transaction new_transaction_id ;;
            set_amount_float new_transaction ;;;
            ret new_transaction
        end))
    (except_clauses "An unexpected error occurred.").

Definition create_withdrawal (withdrawal : TransferCreate.t)
  : M Transaction.t :=
  let source_id := TransferCreate.source_account_id withdrawal in
  let withdrawal_amount := TransferCreate.amount withdrawal in
  try_except
    (with_begin
       (source_account <- query_account_for_update source_id ;;
        match source_account with
        | None => raise (HTTPException 404 "Source account not found.")
        | Some _ =>
            current_source_balance <- calculate_account_balance source_id ;;
            if decimal_lt current_source_balance withdrawal_amount
            then raise (HTTPException 403 "Insufficient funds for withdrawal.")
            else
              new_transaction_id <-
                add_flush_transaction "withdrawal" "completed"
                  withdrawal_amount
                  (TransferCreate.currency withdrawal)
                  (TransferCreate.description withdrawal) ;;
              let debit_entry :=
                mk_entry new_transaction_id source_id "debit"
                         withdrawal_amount in
              add_all [debit_entry] ;;;
              new_transaction <- refresh_transaction new_transaction_id ;;
              set_amount_float new_transaction ;;;
              ret new_transaction
        end))
    (except_clauses "An unexpected error occurred.").

Inductive Payload :=
| AccountResponse (a : Account.t) (current_balance : Q)
| TransactionResponse (t : Transaction.t).

Inductive Response :=
| Success (p : Payload)
| Failed (status_code : Z) (detail : string).

(** The response, the committed tables and the statements sent. *)
Definition Outcome : Type := Response * Db * list Stmt.

Definition response (o : Outcome) : Response := fst (fst o).
Definition db_of (o : Outcome) : Db := snd (fst o).
Definition statements (o : Outcome) : list Stmt := snd o.

Definition response_of {A} (wrap : A -> Payload) (r : Exn + A) : Response :=
  match r with
  | inr a => Success (wrap a)
  | inl (HTTPException code detail) => Failed code detail
  | inl DBAPIError => Failed 500 "Internal Server Error"
  end.

Definition failure (r : Response) : option Failure :=
  match r with
  | Success _ => None
  | Failed code _ => Some (failure_of_status code)
  end.

Definition succeeded (r : Response) : option Transaction.t :=
  match r with
  | Success (TransactionResponse t) => Some t
  | _ => None
  end.

(** [Depends(get_db)]: a fresh session for the handler and for the
    response built from its result, closed in the [finally] clause. *)
Definition with_get_db {A} (wrap : A -> Payload) (handler : M A) (w : World)
  (db : Db) : Outcome :=
  let (r, s) := handler w (SessionLocal db) in
  let s' := snd (rollback w s) in
  (response_of wrap r, stored s', log s').

(** The [TransactionResponse] is built from the object the handler
    returned, which the commit has expired: its row is read again. *)
Definition serialized (handler : M Transaction.t) : M Transaction.t :=
  t <- handler ;;
  refresh_transaction (Transaction.id t).

Definition with_body (handler : TransferCreate.t -> M Transaction.t)
  (w : World) (b : TransferCreate.body) (db : Db) : Outcome :=
  match TransferCreate.validate b with
  | None => (Failed 422 "Unprocessable Entity", db, [])
  | Some req => with_get_db TransactionResponse (serialized (handler req)) w db
  end.

Definition post_transfers := with_body create_transfer.
Definition post_deposits := with_body create_deposit.
Definition post_withdrawals := with_body create_withdrawal.

Definition post_accounts (w : World) (a : AccountCreate.t) (db : Db)
  : Outcome :=
  if AccountCreate.valid a
  then with_get_db (fun p => AccountResponse (fst p) (snd p))
                   (create_account a) w db
  else (Failed 422 "Unprocessable Entity", db, []).

Definition get_account (w : World) (account_id : Z) (db : Db) : Outcome :=
  with_get_db (fun p => AccountResponse (fst p) (snd p))
              (read_account account_id) w db.

Inductive Request :=
| POST_accounts (a : AccountCreate.t)
| GET_accounts (account_id : Z)
| POST_transfers (b : TransferCreate.body)
| POST_deposits (b : TransferCreate.body)
| POST_withdrawals (b : TransferCreate.body).

Definition serve (w : World) (r : Request) (db : Db) : Outcome :=
  match r with
  | POST_accounts a => post_accounts w a db
  | GET_accounts i => get_account w i db
  | POST_transfers b => post_transfers w b db
  | POST_deposits b => post_deposits w b db
  | POST_withdrawals b => post_withdrawals w b db
  end.

(** Requests served one after the other, each in its own world. *)
Fixpoint run (reqs : list (World * Request)) (db : Db) : Db :=
  match reqs with
  | [] => db
  | (w, r) :: reqs' => run reqs' (db_of (serve w r db))
  end.

(** No statement raises an unexpected error. *)
Definition fault_free (w : World) : Prop :=
  forall n st, raises w n st = false.

(** A world for the examples: the statements whose number [raising] picks
    raise, the next account gets the key [ka], the next transaction the key
    [kt] and the next ledger entries the keys [ke], [ke + 1], ...  A decimal
    with four decimals is a float exactly when it is a multiple of 1/16, and
    the float of a number of at most fifteen digits is shown and stored as
    that number. *)
Definition sample_world (ka kt ke : Z) (raising : nat -> bool) : World :=
  mkWorld (fun n _ => raising n)
          (fun _ => ka)
          (fun _ => kt)
          (fun _ i => ke + Z.of_nat i)
          (fun z => negb (z mod 625 =? 0))
          (fun z => Some z)
          (fun z => decimal_of z).

Definition sample_body (s d : Z) (a : Q) (c : string) : TransferCreate.body :=
  TransferCreate.mk_body (Some s) (Some d) (Some a) (Some c) None.

End Pg.

(** The session of the finer model once a statement has been sent. *)
Definition pg_sent (st : Pg.Stmt) (s : Pg.Session) : Pg.Session :=
  Pg.mkSession (Pg.stored s) (Pg.current s) (Pg.new s) (Pg.dirty s) true
               (Pg.log s ++ [st]).

(** The transaction row a committed operation of the finer model leaves:
    a key that was free, the type of the operation, the amount [z] the
    column took, or what the column holds once the float of [z] has been
    written over it. *)
Definition pg_new_transaction (w : Pg.World) (db : Db) (type : string)
  (req : Pg.TransferCreate.t) (z : Z) (t : Transaction.t) : Prop :=
  ~ In (Transaction.id t) (map Transaction.id (transaction db))
  /\ Transaction.type t = type
  /\ Transaction.status t = "completed"
  /\ (if Pg.float_differs w z
      then Pg.float_numeric w z = Some (Transaction.amount t)
      else Transaction.amount t = z)
  /\ Transaction.currency t = Pg.TransferCreate.currency req
  /\ Transaction.description t = Pg.TransferCreate.description req.

(** A ledger entry of the transaction [t], under a key that was free. *)
Definition pg_new_entry (db : Db) (t : Transaction.t) (account_id : Z)
  (entry_type : string) (z : Z) (e : LedgerEntry.t) : Prop :=
  ~ In (LedgerEntry.id e) (map LedgerEntry.id (ledger_entry db))
  /\ LedgerEntry.transaction_id e = Transaction.id t
  /\ LedgerEntry.account_id e = account_id
  /\ LedgerEntry.entry_type e = entry_type
  /\ LedgerEntry.amount e = z.

(** The answer to a request whose handler has committed [t]: the row, or
    the 500 of the framework when reading it back raised. *)
Definition pg_answered (o : Pg.Outcome) (t : Transaction.t) : Prop :=
  Pg.response o = Pg.Success (Pg.TransactionResponse t)
  \/ Pg.response o = Pg.Failed 500 "Internal Server Error".

(** The answer is a failure of the handler or of the validation, not of the
    framework. *)
Definition pg_refused (o : Pg.Outcome) : Prop :=
  Pg.succeeded (Pg.response o) = None
  /\ Pg.response o <> Pg.Failed 500 "Internal Server Error".

(** The user of the request has an account in its currency. *)
Definition pg_owned (a : Pg.AccountCreate.t) (db : Db) : bool :=
  existsb (fun r =>
             (Account.user_id r =? Pg.AccountCreate.user_id a)%string
             && (Account.currency r =? Pg.AccountCreate.currency a)%string)
          (account db).

(** The row of the account a request creates, under the key [k]. *)
Definition pg_account_row (k : Z) (a : Pg.AccountCreate.t) : Account.t :=
  Account.mk k (Pg.AccountCreate.user_id a) (Pg.AccountCreate.account_type a)
             (Pg.AccountCreate.currency a) "active".

(** The database with one more account. *)
Definition pg_with_account (db : Db) (r : Account.t) : Db :=
  mkDb (account db ++ [r]) (transaction db) (ledger_entry db).

(** The statements of a request end with the given ones. *)
Definition pg_ends_with (tail l : list Pg.Stmt) : Prop :=
  exists l', l = l' ++ tail.

(** The tables of the second database are those of the first, followed by
    more rows; the transaction rows may differ from the ones they were in
    the amount only. *)
Definition pg_extends (db db' : Db) : Prop :=
  extends (account db) (account db')
  /\ extends (transaction db) (transaction db')
  /\ extends (ledger_entry db) (ledger_entry db').

(** A request to open an account, and a world in which the third statement
    of a request raises, for the examples. *)
Definition pg_sample_account : Pg.AccountCreate.t :=
  Pg.AccountCreate.mk "U3" "savings" "EUR".

(* ================================================================== *)
(** ** Primary keys and lookups *)

Lemma fold_max_nonneg (l : list Z) : 0 <= fold_right Z.max 0 l.
Proof. induction l as [|x l IH]; simpl; lia. Qed.

Lemma fold_max_ge (l : list Z) (x : Z) : In x l -> x <= fold_right Z.max 0 l.
Proof.
  induction l as [|y l IH]; simpl; [tauto|].
  intros [->|H]; [lia|]. specialize (IH H). lia.
Qed.

Lemma next_id_fresh (l : list Z) (x : Z) : In x l -> x < next_id l.
Proof. intros H. apply fold_max_ge in H. unfold next_id. lia. Qed.

Lemma next_id_pos (l : list Z) : 0 < next_id l.
Proof. unfold next_id. pose proof (fold_max_nonneg l). lia. Qed.

Lemma fold_max_app (l1 l2 : list Z) :
  fold_right Z.max 0 (l1 ++ l2)
  = Z.max (fold_right Z.max 0 l1) (fold_right Z.max 0 l2).
Proof.
  induction l1 as [|x l1 IH]; simpl.
  - pose proof (fold_max_nonneg l2). lia.
  - rewrite IH. lia.
Qed.

Lemma next_id_snoc (l : list Z) : next_id (l ++ [next_id l]) = next_id l + 1.
Proof.
  unfold next_id. rewrite fold_max_app. cbn [fold_right].
  pose proof (fold_max_nonneg l). lia.
Qed.

Lemma has_id_In (i : Z) (l : list Z) : has_id i l = true <-> In i l.
Proof.
  unfold has_id. rewrite existsb_exists. split.
  - intros (x & Hx & E). apply Z.eqb_eq in E. now subst.
  - intros H. exists i. split; [assumption|apply Z.eqb_refl].
Qed.

Lemma has_id_app_l (i : Z) (l1 l2 : list Z) :
  has_id i l1 = true -> has_id i (l1 ++ l2) = true.
Proof. rewrite !has_id_In, in_app_iff. tauto. Qed.

Lemma has_id_snoc (i : Z) (l : list Z) : has_id i (l ++ [i]) = true.
Proof. rewrite has_id_In, in_app_iff. simpl. tauto. Qed.

Lemma find_account_has_id (db : Db) (i : Z) (a : Account.t) :
  find_account db i = Some a -> has_id i (map Account.id (account db)) = true.
Proof.
  unfold find_account. intros H. apply find_some in H. destruct H as [H E].
  apply Z.eqb_eq in E. subst i. apply has_id_In. now apply in_map.
Qed.

Lemma find_transaction_fresh (l : list Transaction.t) (t : Transaction.t) :
  Transaction.id t = next_id (map Transaction.id l) ->
  find (fun r => Transaction.id r =? Transaction.id t) (l ++ [t]) = Some t.
Proof.
  intros E.
  assert (H : forall r, In r l -> (Transaction.id r =? Transaction.id t) = false).
  { intros r Hr. apply Z.eqb_neq.
    pose proof (next_id_fresh (map Transaction.id l) (Transaction.id r)
                  (in_map _ _ _ Hr)). lia. }
  clear E. induction l as [|r l IH]; simpl.
  - now rewrite Z.eqb_refl.
  - rewrite (H r) by (now left). apply IH. intros r' Hr'. apply H. now right.
Qed.

(* ================================================================== *)
(** ** The balance loop against the derived balance *)

Lemma sum_app (l1 l2 : list Z) : sum (l1 ++ l2) = sum l1 + sum l2.
Proof. unfold sum. induction l1 as [|x l1 IH]; simpl; lia. Qed.

Lemma balance_loop (es : list LedgerEntry.t) (i acc : Z) :
  fold_left balance_step
            (filter (fun e => LedgerEntry.account_id e =? i) es) acc
  = acc
    + sum (map LedgerEntry.amount
             (filter (fun e => (LedgerEntry.account_id e =? i)
                               && (LedgerEntry.entry_type e =? "credit")%string)
                     es))
    - sum (map LedgerEntry.amount
             (filter (fun e => (LedgerEntry.account_id e =? i)
                               && (LedgerEntry.entry_type e =? "debit")%string)
                     es)).
Proof.
  revert acc. induction es as [|e es IH]; intros acc; simpl.
  - unfold sum; simpl; lia.
  - destruct (LedgerEntry.account_id e =? i); simpl.
    + rewrite IH. unfold balance_step.
      destruct (LedgerEntry.entry_type e =? "credit")%string eqn:Ec.
      * apply String.eqb_eq in Ec. rewrite Ec. simpl. unfold sum; simpl. lia.
      * destruct (LedgerEntry.entry_type e =? "debit")%string;
          unfold sum; simpl; lia.
    + apply IH.
Qed.

Lemma balance_loop_derived (db : Db) (i : Z) :
  fold_left balance_step
            (filter (fun e => LedgerEntry.account_id e =? i) (ledger_entry db)) 0
  = derived_balance db i.
Proof. rewrite balance_loop. unfold derived_balance, entries_of. lia. Qed.

(** C2. Whatever the session, the balance calculator sends one query for the
    entries of the account and, unless that query raises, returns the sum of
    the amounts of the credit entries of the account minus the sum of the
    amounts of its debit entries; the value is a function of the rows alone,
    and the call leaves the stored rows, the rows of the open transaction and
    the pending objects as they were. *)
Theorem calculate_account_balance_correct :
  forall (fl : Faults) (s : Session) (account_id : Z),
    let q := SELECT_ledger_entry account_id in
    let out := calculate_account_balance account_id fl s in
    fst out
    = (if fl (List.length (log s)) q then inl DBAPIError
       else inr (sum (map LedgerEntry.amount
                        (entries_of (current s) account_id "credit"))
                 - sum (map LedgerEntry.amount
                          (entries_of (current s) account_id "debit"))))
    /\ stored (snd out) = stored s
    /\ current (snd out) = current s
    /\ new (snd out) = new s
    /\ log (snd out) = log s ++ [q].
Proof.
  intros fl s i q out. subst q out.
  unfold calculate_account_balance, query_ledger_entries, bind, execute,
    get_current, ret.
  destruct (fl (List.length (log s)) (SELECT_ledger_entry i)); simpl.
  - repeat split.
  - rewrite balance_loop_derived. repeat split.
Qed.

Lemma find_inserted_transaction (l : list Transaction.t) (x : Transaction.init) :
  find (fun r => Transaction.id r =? next_id (map Transaction.id l))
       (l ++ [Transaction.row (next_id (map Transaction.id l)) x])
  = Some (Transaction.row (next_id (map Transaction.id l)) x).
Proof. now apply (find_transaction_fresh l (Transaction.row _ x)). Qed.

Lemma has_id_inserted_transaction (l : list Transaction.t) (x : Transaction.init) :
  has_id (next_id (map Transaction.id l))
         (map Transaction.id
            (l ++ [Transaction.row (next_id (map Transaction.id l)) x]))
  = true.
Proof. rewrite map_app. apply has_id_snoc. Qed.

Lemma next_id_after_insert (l : list LedgerEntry.t) (x : LedgerEntry.init) :
  next_id (map LedgerEntry.id
             (l ++ [LedgerEntry.row (next_id (map LedgerEntry.id l)) x]))
  = next_id (map LedgerEntry.id l) + 1.
Proof.
  rewrite map_app. cbn [map LedgerEntry.row LedgerEntry.id].
  apply next_id_snoc.
Qed.

(* ================================================================== *)
(** ** Running the session operations *)

Lemma run_bind {A B} (m : M A) (k : A -> M B) (fl : Faults) (s : Session) :
  bind m k fl s = match m fl s with
                  | (inr a, s') => k a fl s'
                  | (inl e, s') => (inl e, s')
                  end.
Proof. reflexivity. Qed.

Lemma run_execute (st : Stmt) (fl : Faults) (s : Session) :
  execute st fl s
  = (if fl (List.length (log s)) st then inl DBAPIError else inr tt, sent st s).
Proof. unfold execute, sent. now destruct (fl _ _). Qed.

Lemma run_query_account_for_update (i : Z) (fl : Faults) (s : Session) :
  query_account_for_update i fl s
  = (if fl (List.length (log s)) (SELECT_account_FOR_UPDATE i)
     then inl DBAPIError else inr (find_account (current s) i),
     sent (SELECT_account_FOR_UPDATE i) s).
Proof.
  unfold query_account_for_update. rewrite run_bind, run_execute.
  now destruct (fl _ _).
Qed.

Lemma run_calculate_account_balance (i : Z) (fl : Faults) (s : Session) :
  calculate_account_balance i fl s
  = (if fl (List.length (log s)) (SELECT_ledger_entry i)
     then inl DBAPIError else inr (derived_balance (current s) i),
     sent (SELECT_ledger_entry i) s).
Proof.
  unfold calculate_account_balance, query_ledger_entries.
  rewrite !run_bind, run_execute.
  destruct (fl _ _); [reflexivity|].
  unfold get_current, ret, bind. cbn. now rewrite balance_loop_derived.
Qed.

Lemma run_add_flush_transaction (x : Transaction.init) (fl : Faults)
  (s : Session) :
  add_flush_transaction x fl s
  = let s1 := sent (INSERT_transaction x) s in
    if fl (List.length (log s)) (INSERT_transaction x)
    then (inl DBAPIError, s1)
    else
      let db := current s in
      let t := Transaction.row (next_id (map Transaction.id (transaction db))) x in
      (inr t,
       mkSession (stored s1)
         (mkDb (account db) (transaction db ++ [t]) (ledger_entry db))
         (new s1) (active s1) (log s1)).
Proof.
  unfold add_flush_transaction. rewrite run_bind, run_execute.
  now destruct (fl _ _).
Qed.

Lemma run_refresh_transaction (t : Transaction.t) (fl : Faults) (s : Session) :
  refresh_transaction t fl s
  = let s1 := sent (SELECT_transaction (Transaction.id t)) s in
    if fl (List.length (log s)) (SELECT_transaction (Transaction.id t))
    then (inl DBAPIError, s1)
    else match find (fun r => Transaction.id r =? Transaction.id t)
                    (transaction (current s)) with
         | Some r => (inr r, s1)
         | None => (inl DBAPIError, s1)
         end.
Proof.
  unfold refresh_transaction. rewrite run_bind, run_execute.
  destruct (fl _ _); [reflexivity|]. unfold bind, get_current. cbn.
  now destruct (find _ _).
Qed.

Lemma run_insert_ledger_entry (x : LedgerEntry.init) (fl : Faults)
  (s : Session) :
  insert_ledger_entry x fl s
  = let s1 := sent (INSERT_ledger_entry x) s in
    let db := current s in
    if fl (List.length (log s)) (INSERT_ledger_entry x)
    then (inl DBAPIError, s1)
    else if has_id (LedgerEntry.init_transaction_id x)
                   (map Transaction.id (transaction db))
            && has_id (LedgerEntry.init_account_id x)
                      (map Account.id (account db))
            && (0 <? LedgerEntry.init_amount x)
         then (inr tt,
               mkSession (stored s1)
                 (mkDb (account db) (transaction db)
                    (ledger_entry db
                     ++ [LedgerEntry.row
                           (next_id (map LedgerEntry.id (ledger_entry db))) x]))
                 (new s1) (active s1) (log s1))
         else (inl DBAPIError, s1).
Proof.
  unfold insert_ledger_entry. rewrite run_bind, run_execute.
  destruct (fl _ _); [reflexivity|]. unfold bind, get_current. cbn.
  now destruct (_ && _).
Qed.

(** Symbolic execution of a handler from a known session: the operations are
    rewritten with their equations, and the run splits on the outcome of each
    statement and of each check of the handler. *)
Ltac proj :=
  cbn [stored current new active log sent fst snd
       account transaction ledger_entry
       Transaction.id Transaction.row
       LedgerEntry.init_transaction_id LedgerEntry.init_account_id
       LedgerEntry.init_amount LedgerEntry.init_entry_type
       insert_all app List.length map andb orb negb].

Ltac exec_code :=
  first
    [ rewrite run_bind
    | rewrite run_query_account_for_update
    | rewrite run_calculate_account_balance
    | rewrite run_add_flush_transaction
    | rewrite run_refresh_transaction
    | rewrite run_insert_ledger_entry
    | rewrite run_execute
    | progress unfold ret, raise, add_all, rollback, flush, commit,
        with_begin, try_except, except_clauses, SessionLocal,
        with_get_db, response_of ].

Ltac exec_data :=
  match goal with
  | |- context [has_id _ (map Transaction.id (?l ++ [Transaction.row _ ?x]))] =>
      rewrite (has_id_inserted_transaction l x)
  | H : find_account ?db ?i = Some ?a
    |- context [has_id ?i (map Account.id (account ?db))] =>
      rewrite (find_account_has_id db i a H)
  | |- context [find _ (?l ++ [Transaction.row _ ?x])] =>
      rewrite (find_inserted_transaction l x)
  | |- context [next_id (map LedgerEntry.id (?l ++ [LedgerEntry.row _ ?x]))] =>
      rewrite (next_id_after_insert l x)
  | |- context [if ?c then _ else _] =>
      match c with
      | ?f ?n ?st =>
          match type of f with
          | Faults =>
              first
                [ match goal with
                  | H : fault_free f |- _ => rewrite (H n st)
                  end
                | match goal with
                  | H : selects_ok f |- _ => rewrite (H n st eq_refl)
                  end
                | destruct c eqn:? ]
          end
      end
  | H : find_account ?db ?i = _ |- context [find_account ?db ?i] => rewrite H
  | |- context [find_account ?db ?i] => destruct (find_account db i) eqn:?
  | |- context [?a <? ?b] => destruct (Z.ltb_spec a b)
  | |- context [if negb ?a || negb ?b then _ else _] =>
      destruct a eqn:?; destruct b eqn:?
  end.

Ltac exec := repeat (first [exec_code | exec_data]; proj).

Ltac exec_handler :=
  unfold post_transfers, post_deposits, post_withdrawals, with_body,
    create_transfer, create_deposit, create_withdrawal;
  exec.

(* ================================================================== *)
(** ** What one request does to the database *)

Lemma post_transfers_cases (fl : Faults) (b : TransferCreate.body) (db : Db) :
  let o := post_transfers fl b db in
  (succeeded (response o) = None /\ db_of o = db)
  \/ (exists req sa da,
        TransferCreate.validate b = Some req
        /\ find_account db (TransferCreate.source_account_id req) = Some sa
        /\ find_account db (TransferCreate.destination_account_id req) = Some da
        /\ Account.currency sa = TransferCreate.currency req
        /\ Account.currency da = TransferCreate.currency req
        /\ TransferCreate.amount req
           <= derived_balance db (TransferCreate.source_account_id req)
        /\ 0 < TransferCreate.amount req
        /\ response o
           = Success (TransactionResponse (new_transaction_row db "transfer" req))
        /\ db_of o = after_transfer db req).
Proof.
  unfold post_transfers, with_body.
  destruct (TransferCreate.validate b) as [req|] eqn:V; [|left; now split].
  unfold create_transfer. exec.
  all: try (left; split; reflexivity).
  right. exists req. do 2 eexists.
  repeat match goal with
         | H : (_ =? _)%string = true |- _ => apply String.eqb_eq in H
         end.
  repeat split; try eassumption; try reflexivity.
  unfold db_of, after_transfer, ledger_row, new_transaction_row,
    Transaction.row, LedgerEntry.row. proj.
  now rewrite Z.add_0_r, <- app_assoc.
Qed.

Lemma post_deposits_cases (fl : Faults) (b : TransferCreate.body) (db : Db) :
  let o := post_deposits fl b db in
  (succeeded (response o) = None /\ db_of o = db)
  \/ (exists req da,
        TransferCreate.validate b = Some req
        /\ find_account db (TransferCreate.destination_account_id req) = Some da
        /\ 0 < TransferCreate.amount req
        /\ response o
           = Success (TransactionResponse (new_transaction_row db "deposit" req))
        /\ db_of o = after_deposit db req).
Proof.
  unfold post_deposits, with_body.
  destruct (TransferCreate.validate b) as [req|] eqn:V; [|left; now split].
  unfold create_deposit. exec.
  all: try (left; split; reflexivity).
  right. exists req. eexists.
  repeat split; try eassumption; try reflexivity.
  unfold db_of, after_deposit, ledger_row, new_transaction_row,
    Transaction.row, LedgerEntry.row. proj.
  now rewrite Z.add_0_r.
Qed.

Lemma post_withdrawals_cases (fl : Faults) (b : TransferCreate.body) (db : Db) :
  let o := post_withdrawals fl b db in
  (succeeded (response o) = None /\ db_of o = db)
  \/ (exists req sa,
        TransferCreate.validate b = Some req
        /\ find_account db (TransferCreate.source_account_id req) = Some sa
        /\ TransferCreate.amount req
           <= derived_balance db (TransferCreate.source_account_id req)
        /\ 0 < TransferCreate.amount req
        /\ response o
           = Success (TransactionResponse (new_transaction_row db "withdrawal" req))
        /\ db_of o = after_withdrawal db req).
Proof.
  unfold post_withdrawals, with_body.
  destruct (TransferCreate.validate b) as [req|] eqn:V; [|left; now split].
  unfold create_withdrawal. exec.
  all: try (left; split; reflexivity).
  right. exists req. eexists.
  repeat split; try eassumption; try reflexivity.
  unfold db_of, after_withdrawal, ledger_row, new_transaction_row,
    Transaction.row, LedgerEntry.row. proj.
  now rewrite Z.add_0_r.
Qed.

Lemma run_query_account_by_user_currency (u c : string) (fl : Faults)
  (s : Session) :
  query_account_by_user_currency u c fl s
  = (if fl (List.length (log s)) (SELECT_account_WHERE_user_currency u c)
     then inl DBAPIError
     else inr (find (fun a => (Account.user_id a =? u)%string
                              && (Account.currency a =? c)%string)
                    (account (current s))),
     sent (SELECT_account_WHERE_user_currency u c) s).
Proof.
  unfold query_account_by_user_currency. rewrite run_bind, run_execute.
  now destruct (fl _ _).
Qed.

Lemma run_add_flush_account (x : AccountCreate.t) (fl : Faults) (s : Session) :
  exists r db',
    add_flush_account x fl s
    = (r, mkSession (stored s) db' (new s) true (log s ++ [INSERT_account x]))
    /\ transaction db' = transaction (current s)
    /\ ledger_entry db' = ledger_entry (current s).
Proof.
  unfold add_flush_account. rewrite run_bind, run_execute.
  destruct (fl _ _); [now eexists _, _|].
  unfold bind, get_current, set_current, ret, raise. proj.
  destruct (_ && _); now eexists _, _.
Qed.

Lemma run_refresh_account (a : Account.t) (fl : Faults) (s : Session) :
  exists r,
    refresh_account a fl s = (r, sent (SELECT_account (Account.id a)) s).
Proof.
  unfold refresh_account. rewrite run_bind, run_execute.
  destruct (fl _ _); [now eexists|].
  unfold bind, get_current, ret, raise. proj.
  destruct (find _ _); now eexists.
Qed.

(** The account endpoints write no transaction and no ledger entry. *)
Lemma post_accounts_ledger (fl : Faults) (a : AccountCreate.t) (db : Db) :
  let o := post_accounts fl a db in
  transaction (db_of o) = transaction db
  /\ ledger_entry (db_of o) = ledger_entry db.
Proof.
  unfold post_accounts, db_of. destruct (AccountCreate.valid a); [|now split].
  unfold create_account, create_new_account_in_db, with_get_db.
  rewrite !run_bind, run_query_account_by_user_currency.
  destruct (fl _ _); proj; [now split|].
  destruct (find _ _); unfold raise; proj; [now split|].
  rewrite ?run_bind.
  match goal with
  | |- context [add_flush_account ?x ?f ?s] =>
      destruct (run_add_flush_account x f s) as (r & db' & -> & Ht & Hl)
  end.
  unfold SessionLocal in Ht, Hl. proj. cbn [current] in Ht, Hl.
  destruct r as [e|acc]; proj; [now split|].
  cbn [sent current] in Ht, Hl.
  exec; [now split|].
  match goal with
  | |- context [refresh_account ?x ?f ?s] =>
      destruct (run_refresh_account x f s) as (r & ->)
  end.
  destruct r as [[]|]; proj; now split.
Qed.

Lemma get_account_db (fl : Faults) (i : Z) (db : Db) :
  db_of (get_account fl i db) = db.
Proof.
  unfold get_account, read_account, get_current, db_of.
  exec.
  all: repeat match goal with
         | |- context [match find ?f ?l with _ => _ end] =>
             destruct (find f l); exec
         end.
  all: reflexivity.
Qed.

(* ================================================================== *)
(** ** Outcomes of the three operations under their preconditions *)

Ltac string_eqs :=
  repeat match goal with
         | H : (_ =? _)%string = true |- _ => apply String.eqb_eq in H
         | H : (_ =? _)%string = false |- _ => apply String.eqb_neq in H
         end.

Lemma post_transfers_failure (fl : Faults) (b : TransferCreate.body) (db : Db) :
  let o := post_transfers fl b db in
  (failure (response o) = Some InsufficientFunds ->
   exists req,
     TransferCreate.validate b = Some req
     /\ derived_balance db (TransferCreate.source_account_id req)
        < TransferCreate.amount req)
  /\ (failure (response o) = Some CurrencyMismatch ->
      existsb is_write (statements o) = false
      /\ exists req sa da,
          TransferCreate.validate b = Some req
          /\ find_account db (TransferCreate.source_account_id req) = Some sa
          /\ find_account db (TransferCreate.destination_account_id req) = Some da
          /\ (Account.currency sa <> TransferCreate.currency req
              \/ Account.currency da <> TransferCreate.currency req)).
Proof.
  unfold post_transfers, with_body.
  destruct (TransferCreate.validate b) as [req|] eqn:V;
    [|split; intros [=]].
  unfold create_transfer. exec.
  all: split; intros F; try discriminate F; string_eqs.
  all: try (exists req; now split).
  all: split; [reflexivity|]; exists req; do 2 eexists;
    repeat split; try eassumption; tauto.
Qed.

Lemma post_withdrawals_failure (fl : Faults) (b : TransferCreate.body)
  (db : Db) :
  let o := post_withdrawals fl b db in
  (failure (response o) = Some InsufficientFunds ->
   exists req,
     TransferCreate.validate b = Some req
     /\ derived_balance db (TransferCreate.source_account_id req)
        < TransferCreate.amount req)
  /\ failure (response o) <> Some CurrencyMismatch.
Proof.
  unfold post_withdrawals, with_body.
  destruct (TransferCreate.validate b) as [req|] eqn:V;
    [|split; [intros [=]|intros [=]]].
  unfold create_withdrawal. exec.
  all: split; [intros F; try discriminate F|intros F; discriminate F].
  all: exists req; now split.
Qed.

Lemma post_deposits_failure (fl : Faults) (b : TransferCreate.body) (db : Db) :
  let o := post_deposits fl b db in
  failure (response o) <> Some InsufficientFunds
  /\ failure (response o) <> Some CurrencyMismatch.
Proof.
  unfold post_deposits, with_body.
  destruct (TransferCreate.validate b) as [req|] eqn:V;
    [|split; intros [=]].
  unfold create_deposit. exec.
  all: split; intros F; discriminate F.
Qed.

Lemma post_transfers_insufficient (fl : Faults) (b : TransferCreate.body)
  (db : Db) (req : TransferCreate.t) (sa da : Account.t) :
  selects_ok fl ->
  TransferCreate.validate b = Some req ->
  find_account db (TransferCreate.source_account_id req) = Some sa ->
  find_account db (TransferCreate.destination_account_id req) = Some da ->
  Account.currency sa = TransferCreate.currency req ->
  Account.currency da = TransferCreate.currency req ->
  derived_balance db (TransferCreate.source_account_id req)
  < TransferCreate.amount req ->
  response (post_transfers fl b db)
  = Failed 403 "Insufficient funds in source account.".
Proof.
  intros Hfl V Hs Hd Cs Cd Hb.
  unfold post_transfers, with_body. rewrite V.
  unfold create_transfer. exec.
  all: string_eqs; try congruence; try lia; reflexivity.
Qed.

Lemma post_withdrawals_insufficient (fl : Faults) (b : TransferCreate.body)
  (db : Db) (req : TransferCreate.t) (sa : Account.t) :
  selects_ok fl ->
  TransferCreate.validate b = Some req ->
  find_account db (TransferCreate.source_account_id req) = Some sa ->
  derived_balance db (TransferCreate.source_account_id req)
  < TransferCreate.amount req ->
  response (post_withdrawals fl b db)
  = Failed 403 "Insufficient funds for withdrawal.".
Proof.
  intros Hfl V Hs Hb.
  unfold post_withdrawals, with_body. rewrite V.
  unfold create_withdrawal. exec.
  all: try lia; reflexivity.
Qed.

Lemma post_transfers_mismatch (fl : Faults) (b : TransferCreate.body)
  (db : Db) (req : TransferCreate.t) (sa da : Account.t) :
  selects_ok fl ->
  TransferCreate.validate b = Some req ->
  find_account db (TransferCreate.source_account_id req) = Some sa ->
  find_account db (TransferCreate.destination_account_id req) = Some da ->
  Account.currency sa <> TransferCreate.currency req
  \/ Account.currency da <> TransferCreate.currency req ->
  response (post_transfers fl b db) = Failed 400 "Currency mismatch.".
Proof.
  intros Hfl V Hs Hd Hc.
  unfold post_transfers, with_body. rewrite V.
  unfold create_transfer. exec.
  all: string_eqs; try tauto; reflexivity.
Qed.

Lemma validate_sound (b : TransferCreate.body) (req : TransferCreate.t) :
  TransferCreate.validate b = Some req ->
  0 < TransferCreate.amount req
  /\ TransferCreate.body_source_account_id b
     = Some (TransferCreate.source_account_id req)
  /\ TransferCreate.body_destination_account_id b
     = Some (TransferCreate.destination_account_id req)
  /\ TransferCreate.body_amount b = Some (TransferCreate.amount req)
  /\ TransferCreate.body_currency b = Some (TransferCreate.currency req)
  /\ TransferCreate.body_description b = TransferCreate.description req.
Proof.
  unfold TransferCreate.validate.
  destruct (TransferCreate.body_source_account_id b);
    destruct (TransferCreate.body_destination_account_id b);
    destruct (TransferCreate.body_amount b) as [a|];
    destruct (TransferCreate.body_currency b); try discriminate.
  destruct (Z.ltb_spec 0 a); [|discriminate].
  cbn [andb]. destruct (_ <=? _)%nat; [|discriminate].
  intros [= <-]. now repeat split.
Qed.

Lemma post_transfers_ok (fl : Faults) (b : TransferCreate.body)
  (db : Db) (req : TransferCreate.t) (sa da : Account.t) :
  fault_free fl ->
  TransferCreate.validate b = Some req ->
  find_account db (TransferCreate.source_account_id req) = Some sa ->
  find_account db (TransferCreate.destination_account_id req) = Some da ->
  Account.currency sa = TransferCreate.currency req ->
  Account.currency da = TransferCreate.currency req ->
  TransferCreate.amount req
  <= derived_balance db (TransferCreate.source_account_id req) ->
  response (post_transfers fl b db)
  = Success (TransactionResponse (new_transaction_row db "transfer" req))
  /\ db_of (post_transfers fl b db) = after_transfer db req.
Proof.
  intros Hfl V Hs Hd Cs Cd Hb.
  pose proof (validate_sound b req V) as (Ha & _).
  destruct (post_transfers_cases fl b db) as [[F _]|C].
  - exfalso. revert F.
    unfold post_transfers, with_body. rewrite V.
    unfold create_transfer. exec.
    all: string_eqs; try congruence; try lia; discriminate.
  - destruct C as (req' & _ & _ & V' & _ & _ & _ & _ & _ & _ & R & D).
    rewrite V in V'. injection V' as <-. now split.
Qed.

Lemma post_deposits_ok (fl : Faults) (b : TransferCreate.body)
  (db : Db) (req : TransferCreate.t) (da : Account.t) :
  fault_free fl ->
  TransferCreate.validate b = Some req ->
  find_account db (TransferCreate.destination_account_id req) = Some da ->
  response (post_deposits fl b db)
  = Success (TransactionResponse (new_transaction_row db "deposit" req))
  /\ db_of (post_deposits fl b db) = after_deposit db req.
Proof.
  intros Hfl V Hd.
  pose proof (validate_sound b req V) as (Ha & _).
  destruct (post_deposits_cases fl b db) as [[F _]|C].
  - exfalso. revert F.
    unfold post_deposits, with_body. rewrite V.
    unfold create_deposit. exec.
    all: try lia; discriminate.
  - destruct C as (req' & _ & V' & _ & _ & R & D).
    rewrite V in V'. injection V' as <-. now split.
Qed.

Lemma post_withdrawals_ok (fl : Faults) (b : TransferCreate.body)
  (db : Db) (req : TransferCreate.t) (sa : Account.t) :
  fault_free fl ->
  TransferCreate.validate b = Some req ->
  find_account db (TransferCreate.source_account_id req) = Some sa ->
  TransferCreate.amount req
  <= derived_balance db (TransferCreate.source_account_id req) ->
  response (post_withdrawals fl b db)
  = Success (TransactionResponse (new_transaction_row db "withdrawal" req))
  /\ db_of (post_withdrawals fl b db) = after_withdrawal db req.
Proof.
  intros Hfl V Hs Hb.
  pose proof (validate_sound b req V) as (Ha & _).
  destruct (post_withdrawals_cases fl b db) as [[F _]|C].
  - exfalso. revert F.
    unfold post_withdrawals, with_body. rewrite V.
    unfold create_withdrawal. exec.
    all: try lia; discriminate.
  - destruct C as (req' & _ & V' & _ & _ & _ & R & D).
    rewrite V in V'. injection V' as <-. now split.
Qed.

(* ================================================================== *)
(** ** The derived balance after an operation *)

Lemma derived_balance_ext (db1 db2 : Db) (i : Z) :
  ledger_entry db1 = ledger_entry db2 ->
  derived_balance db1 i = derived_balance db2 i.
Proof. unfold derived_balance, entries_of. now intros ->. Qed.

Lemma derived_balance_app (a : list Account.t) (t : list Transaction.t)
  (es es' : list LedgerEntry.t) (i : Z) :
  derived_balance (mkDb a t (es ++ es')) i
  = derived_balance (mkDb a t es) i + derived_balance (mkDb a t es') i.
Proof.
  unfold derived_balance, entries_of. cbn [ledger_entry].
  rewrite !filter_app, !map_app, !sum_app. lia.
Qed.

Lemma derived_balance_credit (a : list Account.t) (t : list Transaction.t)
  (n tx acc amt i : Z) :
  derived_balance (mkDb a t [LedgerEntry.mk n tx acc "credit" amt]) i
  = if acc =? i then amt else 0.
Proof.
  unfold derived_balance, entries_of. cbn [ledger_entry filter].
  cbn [LedgerEntry.account_id LedgerEntry.entry_type].
  destruct (acc =? i); vm_compute; [|reflexivity].
  now destruct amt.
Qed.

Lemma derived_balance_debit (a : list Account.t) (t : list Transaction.t)
  (n tx acc amt i : Z) :
  derived_balance (mkDb a t [LedgerEntry.mk n tx acc "debit" amt]) i
  = if acc =? i then - amt else 0.
Proof.
  unfold derived_balance, entries_of. cbn [ledger_entry filter].
  cbn [LedgerEntry.account_id LedgerEntry.entry_type].
  destruct (acc =? i); vm_compute; [|reflexivity].
  now destruct amt.
Qed.

Lemma derived_balance_after_transfer (db : Db) (req : TransferCreate.t) (i : Z) :
  derived_balance (after_transfer db req) i
  = derived_balance db i
    - (if TransferCreate.source_account_id req =? i
       then TransferCreate.amount req else 0)
    + (if TransferCreate.destination_account_id req =? i
       then TransferCreate.amount req else 0).
Proof.
  unfold after_transfer, ledger_row.
  change [?d; ?c] with ([d] ++ [c]).
  rewrite !derived_balance_app, derived_balance_debit, derived_balance_credit.
  rewrite (derived_balance_ext _ db i) by reflexivity.
  destruct (_ =? i), (_ =? i); lia.
Qed.

Lemma derived_balance_after_deposit (db : Db) (req : TransferCreate.t) (i : Z) :
  derived_balance (after_deposit db req) i
  = derived_balance db i
    + (if TransferCreate.destination_account_id req =? i
       then TransferCreate.amount req else 0).
Proof.
  unfold after_deposit, ledger_row.
  rewrite derived_balance_app, derived_balance_credit.
  now rewrite (derived_balance_ext _ db i) by reflexivity.
Qed.

Lemma derived_balance_after_withdrawal (db : Db) (req : TransferCreate.t)
  (i : Z) :
  derived_balance (after_withdrawal db req) i
  = derived_balance db i
    - (if TransferCreate.source_account_id req =? i
       then TransferCreate.amount req else 0).
Proof.
  unfold after_withdrawal, ledger_row.
  rewrite derived_balance_app, derived_balance_debit.
  rewrite (derived_balance_ext _ db i) by reflexivity.
  destruct (_ =? i); lia.
Qed.

(* ================================================================== *)
(** ** Invariants of the ledger along a sequence of requests *)

Lemma history_invariant (P : Db -> Prop) :
  (forall fl r db, P db -> P (db_of (serve fl r db))) ->
  forall reqs db, P db -> Forall P (history reqs db).
Proof.
  intros step reqs. induction reqs as [|[fl r] reqs IH]; intros db H.
  - constructor.
  - cbn [history]. constructor.
    + now apply step.
    + apply IH. now apply step.
Qed.

Lemma no_overdraft_step (fl : Faults) (r : Request) (db : Db) :
  no_overdraft db -> no_overdraft (db_of (serve fl r db)).
Proof.
  intros H. destruct r as [a|i|b|b|b]; cbn [serve].
  - intros i. destruct (post_accounts_ledger fl a db) as [_ E].
    rewrite (derived_balance_ext _ db i E). apply H.
  - now rewrite get_account_db.
  - destruct (post_transfers_cases fl b db) as [[_ ->]|C]; [exact H|].
    destruct C as (req & sa & da & _ & _ & _ & _ & _ & Hb & Ha & _ & ->).
    intros i. rewrite derived_balance_after_transfer.
    pose proof (H i).
    destruct (Z.eqb_spec (TransferCreate.source_account_id req) i) as [E|E];
      [rewrite E in Hb|]; destruct (_ =? i); lia.
  - destruct (post_deposits_cases fl b db) as [[_ ->]|C]; [exact H|].
    destruct C as (req & da & _ & _ & Ha & _ & ->).
    intros i. rewrite derived_balance_after_deposit.
    pose proof (H i). destruct (_ =? i); lia.
  - destruct (post_withdrawals_cases fl b db) as [[_ ->]|C]; [exact H|].
    destruct C as (req & sa & _ & _ & Hb & Ha & _ & ->).
    intros i. rewrite derived_balance_after_withdrawal.
    pose proof (H i).
    destruct (Z.eqb_spec (TransferCreate.source_account_id req) i) as [E|E];
      [rewrite E in Hb|]; lia.
Qed.

Lemma positive_transactions_step (fl : Faults) (r : Request) (db : Db) :
  positive_transactions db -> positive_transactions (db_of (serve fl r db)).
Proof.
  unfold positive_transactions.
  intros H. destruct r as [a|i|b|b|b]; cbn [serve].
  - destruct (post_accounts_ledger fl a db) as [E _]. now rewrite E.
  - now rewrite get_account_db.
  - destruct (post_transfers_cases fl b db) as [[_ ->]|C]; [exact H|].
    destruct C as (req & sa & da & _ & _ & _ & _ & _ & _ & Ha & _ & ->).
    cbn [after_transfer transaction]. apply Forall_app. split; [exact H|].
    now repeat constructor.
  - destruct (post_deposits_cases fl b db) as [[_ ->]|C]; [exact H|].
    destruct C as (req & da & _ & _ & Ha & _ & ->).
    cbn [after_deposit transaction]. apply Forall_app. split; [exact H|].
    now repeat constructor.
  - destruct (post_withdrawals_cases fl b db) as [[_ ->]|C]; [exact H|].
    destruct C as (req & sa & _ & _ & _ & Ha & _ & ->).
    cbn [after_withdrawal transaction]. apply Forall_app. split; [exact H|].
    now repeat constructor.
Qed.

(* ================================================================== *)
(** ** Atomicity: nothing is stored before the commit *)

Lemma keeps_stored_ret {A} (a : A) : keeps_stored (ret a).
Proof. now intros fl s. Qed.

Lemma keeps_stored_raise {A} (e : Exn) : keeps_stored (@raise A e).
Proof. now intros fl s. Qed.

Lemma keeps_stored_bind {A B} (m : M A) (k : A -> M B) :
  keeps_stored m -> (forall a, keeps_stored (k a)) -> keeps_stored (bind m k).
Proof.
  intros Hm Hk fl s. unfold bind. specialize (Hm fl s).
  destruct (m fl s) as [[e|a] s1]; cbn [snd] in *; [assumption|].
  now rewrite Hk.
Qed.

Lemma keeps_stored_execute (st : Stmt) : keeps_stored (execute st).
Proof. intros fl s. unfold execute. now destruct (fl _ _). Qed.

Lemma keeps_stored_get_current : keeps_stored get_current.
Proof. now intros fl s. Qed.

Lemma keeps_stored_set_current (db : Db) : keeps_stored (set_current db).
Proof. now intros fl s. Qed.

Lemma keeps_stored_add_all (es : list LedgerEntry.init) :
  keeps_stored (add_all es).
Proof. now intros fl s. Qed.

Lemma keeps_stored_rollback : keeps_stored rollback.
Proof. now intros fl s. Qed.

Lemma keeps_stored_if {A} (c : bool) (m1 m2 : M A) :
  keeps_stored m1 -> keeps_stored m2 -> keeps_stored (if c then m1 else m2).
Proof. now destruct c. Qed.

Create HintDb stored discriminated.

#[local] Hint Resolve keeps_stored_ret keeps_stored_raise keeps_stored_execute
  keeps_stored_get_current keeps_stored_set_current keeps_stored_add_all
  keeps_stored_rollback : stored.

#[local] Hint Extern 1 (keeps_stored (bind _ _)) =>
  apply keeps_stored_bind; [|intro] : stored.
#[local] Hint Extern 1 (keeps_stored (if _ then _ else _)) =>
  apply keeps_stored_if : stored.
#[local] Hint Extern 1 (keeps_stored (match ?x with Some _ => _ | None => _ end)) =>
  destruct x : stored.

Lemma keeps_stored_query_account_for_update (i : Z) :
  keeps_stored (query_account_for_update i).
Proof. unfold query_account_for_update. auto 10 with stored. Qed.

Lemma keeps_stored_calculate_account_balance (i : Z) :
  keeps_stored (calculate_account_balance i).
Proof.
  unfold calculate_account_balance, query_ledger_entries.
  auto 10 with stored.
Qed.

Lemma keeps_stored_add_flush_transaction (x : Transaction.init) :
  keeps_stored (add_flush_transaction x).
Proof. unfold add_flush_transaction. auto 10 with stored. Qed.

Lemma keeps_stored_refresh_transaction (t : Transaction.t) :
  keeps_stored (refresh_transaction t).
Proof. unfold refresh_transaction. auto 10 with stored. Qed.

Lemma keeps_stored_insert_ledger_entry (x : LedgerEntry.init) :
  keeps_stored (insert_ledger_entry x).
Proof. unfold insert_ledger_entry. auto 10 with stored. Qed.

Lemma keeps_stored_insert_all (es : list LedgerEntry.init) :
  keeps_stored (insert_all es).
Proof.
  induction es as [|x es IH]; cbn [insert_all].
  - apply keeps_stored_ret.
  - apply keeps_stored_bind; [apply keeps_stored_insert_ledger_entry|].
    intros _. exact IH.
Qed.

Lemma keeps_stored_flush : keeps_stored flush.
Proof.
  intros fl s. unfold flush.
  now rewrite keeps_stored_insert_all.
Qed.

#[local] Hint Resolve keeps_stored_query_account_for_update
  keeps_stored_calculate_account_balance keeps_stored_add_flush_transaction
  keeps_stored_refresh_transaction keeps_stored_flush : stored.

(** A commit that raises has stored nothing. *)
Lemma commit_failure (fl : Faults) (s s' : Session) (e : Exn) :
  commit fl s = (inl e, s') -> stored s' = stored s.
Proof.
  unfold commit. rewrite !run_bind.
  pose proof (keeps_stored_flush fl s) as Hf.
  destruct (flush fl s) as [[e1|[]] s1]; cbn [snd] in Hf.
  - now intros [= _ <-].
  - rewrite run_bind, run_execute. destruct (fl _ _); [|discriminate].
    intros [= _ <-]. exact Hf.
Qed.

(** A [with db.begin()] block that raises has stored nothing, and neither
    has the handler built from it. *)
Lemma with_begin_failure {A} (body : M A) (fl : Faults) (s s' : Session)
  (e : Exn) :
  keeps_stored body ->
  with_begin body fl s = (inl e, s') -> stored s' = stored s.
Proof.
  intros Hb. unfold with_begin. specialize (Hb fl s).
  destruct (body fl s) as [[e1|a] s1]; cbn [snd] in Hb.
  - intros [= _ <-]. exact Hb.
  - destruct (commit fl s1) as [[e2|u] s2] eqn:C; [|discriminate].
    intros [= _ <-]. apply commit_failure in C.
    cbn [rollback snd stored]. congruence.
Qed.

Lemma except_clauses_raise {A} (d : string) (e : Exn) (fl : Faults)
  (s : Session) :
  exists e',
    @except_clauses A d e fl s = (inl e', snd (@except_clauses A d e fl s))
    /\ stored (snd (@except_clauses A d e fl s)) = stored s.
Proof. destruct e; now eexists. Qed.

Lemma handler_failure {A} (body : M A) (d : string) (fl : Faults)
  (s s' : Session) (e : Exn) :
  keeps_stored body ->
  try_except (with_begin body) (except_clauses d) fl s = (inl e, s') ->
  stored s' = stored s.
Proof.
  intros Hb. unfold try_except.
  destruct (with_begin body fl s) as [[e1|a] s1] eqn:W; [|discriminate].
  apply with_begin_failure in W; [|assumption].
  destruct (@except_clauses_raise A d e1 fl s1) as (e' & E & S).
  rewrite E. intros [= _ <-]. congruence.
Qed.

Lemma create_transfer_failure (req : TransferCreate.t) (fl : Faults)
  (s s' : Session) (e : Exn) :
  create_transfer req fl s = (inl e, s') -> stored s' = stored s.
Proof.
  unfold create_transfer. apply handler_failure. auto 20 with stored.
Qed.

Lemma create_deposit_failure (req : TransferCreate.t) (fl : Faults)
  (s s' : Session) (e : Exn) :
  create_deposit req fl s = (inl e, s') -> stored s' = stored s.
Proof.
  unfold create_deposit. apply handler_failure. auto 20 with stored.
Qed.

Lemma create_withdrawal_failure (req : TransferCreate.t) (fl : Faults)
  (s s' : Session) (e : Exn) :
  create_withdrawal req fl s = (inl e, s') -> stored s' = stored s.
Proof.
  unfold create_withdrawal. apply handler_failure. auto 20 with stored.
Qed.

Lemma with_body_failure (handler : TransferCreate.t -> M Transaction.t)
  (fl : Faults) (b : TransferCreate.body) (db : Db) :
  (forall req s s' e, handler req fl s = (inl e, s') -> stored s' = stored s) ->
  failure (response (with_body handler fl b db)) <> None ->
  db_of (with_body handler fl b db) = db.
Proof.
  intros H. unfold with_body.
  destruct (TransferCreate.validate b) as [req|]; [|reflexivity].
  unfold with_get_db.
  destruct (handler req fl (SessionLocal db)) as [[e|t] s1] eqn:R.
  - intros _. unfold db_of. cbn [fst snd]. rewrite keeps_stored_rollback.
    now apply H in R.
  - intros F. now contradiction F.
Qed.

(* ================================================================== *)
(** ** The properties of the specification *)

Lemma no_fault_plan : fault_free no_faults.
Proof. now intros n st. Qed.

Lemma no_fault_selects (fl : Faults) : fault_free fl -> selects_ok fl.
Proof. intros H n st _. apply H. Qed.



(** Under the foreign key, no stored entry belongs to the next transaction. *)
Lemma no_entry_of_next_transaction (db : Db) :
  fk_transaction db ->
  filter (fun e => LedgerEntry.transaction_id e
                   =? next_id (map Transaction.id (transaction db)))
         (ledger_entry db) = [].
Proof.
  unfold fk_transaction. intros H.
  induction (ledger_entry db) as [|e es IH]; [reflexivity|].
  inversion H as [|? ? He Hes]; subst. cbn [filter].
  apply next_id_fresh in He.
  destruct (Z.eqb_spec (LedgerEntry.transaction_id e)
              (next_id (map Transaction.id (transaction db)))); [lia|].
  now apply IH.
Qed.





(** C7, as the code has it.  A transfer locks the source account first and
    the destination account second, in the order of the call, whatever their
    identifiers: the locks are taken in ascending order of identifier exactly
    when the identifier of the source is not above that of the
    destination. *)
Theorem transfer_locks_in_call_order :
  forall (fl : Faults) (b : TransferCreate.body) (db : Db)
         (req : TransferCreate.t),
    TransferCreate.validate b = Some req ->
    fl 0%nat (SELECT_account_FOR_UPDATE (TransferCreate.source_account_id req))
    = false ->
    locks (statements (post_transfers fl b db))
    = [TransferCreate.source_account_id req;
       TransferCreate.destination_account_id req]
    /\ (ascending (locks (statements (post_transfers fl b db))) = true
        <-> TransferCreate.source_account_id req
            <= TransferCreate.destination_account_id req).
Proof.
  intros fl b db req V F0.
  assert (E : locks (statements (post_transfers fl b db))
              = [TransferCreate.source_account_id req;
                 TransferCreate.destination_account_id req]).
  { unfold post_transfers, with_body. rewrite V.
    unfold create_transfer. exec.
    all: try congruence; reflexivity. }
  split; [exact E|]. rewrite E. cbn [ascending]. rewrite andb_true_r.
  apply Z.leb_le.
Qed.

Lemma transfer_locks_in_call_order_witness :
  locks (statements (post_transfers no_faults
                       (sample_body 1 2 400000 "USD") sample_db)) = [1; 2]
  /\ locks (statements (post_transfers no_faults
                          (sample_body 2 1 400000 "USD") sample_db)) = [2; 1].
Proof.
  split.
  - exact (proj1 (transfer_locks_in_call_order no_faults
                    (sample_body 1 2 400000 "USD") sample_db
                    (TransferCreate.mk 1 2 400000 "USD" None)
                    eq_refl eq_refl)).
  - exact (proj1 (transfer_locks_in_call_order no_faults
                    (sample_body 2 1 400000 "USD") sample_db
                    (TransferCreate.mk 2 1 400000 "USD" None)
                    eq_refl eq_refl)).
Defined.

(** C7 as stated fails: a transfer from account 2 to account 1 locks
    account 2 before account 1. *)
Lemma transfer_locks_not_ascending :
  locks (statements (post_transfers no_faults
                       (sample_body 2 1 400000 "USD") sample_db)) = [2; 1]
  /\ ascending (locks (statements (post_transfers no_faults
                                     (sample_body 2 1 400000 "USD")
                                     sample_db))) = false
  /\ ~ (forall fl b db req,
          TransferCreate.validate b = Some req ->
          ascending (locks (statements (post_transfers fl b db))) = true).
Proof.
  split; [reflexivity|]. split; [reflexivity|].
  intros H.
  specialize (H no_faults (sample_body 2 1 400000 "USD") sample_db
                (TransferCreate.mk 2 1 400000 "USD" None) eq_refl).
  discriminate H.
Qed.

Lemma validate_non_positive (b : TransferCreate.body) (a : Z) :
  TransferCreate.body_amount b = Some a -> a <= 0 ->
  TransferCreate.validate b = None.
Proof.
  intros E H. unfold TransferCreate.validate. rewrite E.
  destruct (TransferCreate.body_source_account_id b);
    destruct (TransferCreate.body_destination_account_id b);
    destruct (TransferCreate.body_currency b); try reflexivity.
  destruct (Z.ltb_spec 0 a); [lia|reflexivity].
Qed.





(** C10. A deposit does not depend on the [source_account_id] of its body
    and a withdrawal does not depend on its [destination_account_id]: two
    bodies that differ in that key only are answered alike, leave the same
    database and send the same statements, whatever the database and the
    unexpected errors.  The key has to be there all the same: a body without
    it does not validate. *)
Theorem unused_account_key_is_ignored :
  forall (fl : Faults) (b : TransferCreate.body) (db : Db) (i j : Z),
    post_deposits fl (set_source_account_id (Some i) b) db
    = post_deposits fl (set_source_account_id (Some j) b) db
    /\ post_withdrawals fl (set_destination_account_id (Some i) b) db
       = post_withdrawals fl (set_destination_account_id (Some j) b) db
    /\ post_deposits fl (set_source_account_id None b) db
       = (Failed 422 "Unprocessable Entity", db, [])
    /\ post_withdrawals fl (set_destination_account_id None b) db
       = (Failed 422 "Unprocessable Entity", db, []).
Proof.
  intros fl b db i j.
  unfold post_deposits, post_withdrawals, with_body, TransferCreate.validate,
    set_source_account_id, set_destination_account_id.
  cbn [TransferCreate.body_source_account_id
       TransferCreate.body_destination_account_id
       TransferCreate.body_amount TransferCreate.body_currency
       TransferCreate.body_description].
  destruct (TransferCreate.body_source_account_id b) as [s|];
    destruct (TransferCreate.body_destination_account_id b) as [d|];
    destruct (TransferCreate.body_amount b) as [a|];
    destruct (TransferCreate.body_currency b) as [c|];
    try (repeat split; reflexivity).
  all: destruct ((0 <? a) && (String.length c <=? 3)%nat);
    repeat split; reflexivity.
Qed.

(* ================================================================== *)
(** ** The account endpoints *)

Lemma run_add_flush_account_eq (x : AccountCreate.t) (fl : Faults)
  (s : Session) :
  add_flush_account x fl s
  = let s1 := sent (INSERT_account x) s in
    let db := current s in
    if fl (List.length (log s)) (INSERT_account x)
    then (inl DBAPIError, s1)
    else if negb (existsb (same_owner (AccountCreate.user_id x)
                                      (AccountCreate.currency x))
                          (account db))
            && (String.length (AccountCreate.currency x) =? 3)%nat
         then (inr (new_account_row db x),
               mkSession (stored s1)
                 (mkDb (account db ++ [new_account_row db x])
                       (transaction db) (ledger_entry db))
                 (new s1) (active s1) (log s1))
         else (inl DBAPIError, s1).
Proof.
  unfold add_flush_account. rewrite run_bind, run_execute.
  destruct (fl _ _); [reflexivity|].
  unfold bind, get_current, set_current, ret, raise. proj.
  fold (same_owner (AccountCreate.user_id x) (AccountCreate.currency x)).
  now destruct (_ && _).
Qed.

Lemma run_refresh_account_eq (a : Account.t) (fl : Faults) (s : Session) :
  refresh_account a fl s
  = let s1 := sent (SELECT_account (Account.id a)) s in
    if fl (List.length (log s)) (SELECT_account (Account.id a))
    then (inl DBAPIError, s1)
    else match find_account (current s) (Account.id a) with
         | Some r => (inr r, s1)
         | None => (inl DBAPIError, s1)
         end.
Proof.
  unfold refresh_account. rewrite run_bind, run_execute.
  destruct (fl _ _); [reflexivity|].
  unfold bind, get_current, ret, raise, find_account. proj.
  now destruct (find _ _).
Qed.

Lemma find_account_snoc (l : list Account.t) (a : Account.t) :
  (forall r, In r l -> Account.id r <> Account.id a) ->
  find (fun r => Account.id r =? Account.id a) (l ++ [a]) = Some a.
Proof.
  intros H. induction l as [|r l IH]; cbn [app find].
  - now rewrite Z.eqb_refl.
  - destruct (Z.eqb_spec (Account.id r) (Account.id a)) as [E|_].
    + exfalso. apply (H r); [now left|exact E].
    + apply IH. intros r' Hr'. apply H. now right.
Qed.

Lemma find_inserted_account (db : Db) (x : AccountCreate.t) :
  find_account
    (mkDb (account db ++ [new_account_row db x]) (transaction db)
          (ledger_entry db))
    (next_id (map Account.id (account db)))
  = Some (new_account_row db x).
Proof.
  unfold find_account. cbn [account].
  apply (find_account_snoc (account db) (new_account_row db x)).
  intros r Hr. cbn [new_account_row Account.id].
  pose proof (next_id_fresh (map Account.id (account db)) (Account.id r)
                (in_map _ _ _ Hr)). lia.
Qed.

Lemma find_none_existsb {A} (f : A -> bool) (l : list A) :
  find f l = None <-> existsb f l = false.
Proof.
  induction l as [|x l IH]; cbn; [tauto|].
  destruct (f x); cbn; [split; discriminate|exact IH].
Qed.

Ltac exec_accounts :=
  unfold post_accounts, get_account, create_account, create_new_account_in_db,
    read_account, with_get_db;
  repeat (first
    [ rewrite run_bind
    | rewrite run_query_account_by_user_currency
    | rewrite run_add_flush_account_eq
    | rewrite run_refresh_account_eq
    | rewrite run_calculate_account_balance
    | rewrite run_execute
    | rewrite find_inserted_account
    | progress unfold ret, raise, rollback, flush, commit, get_current,
        SessionLocal, response_of
    | match goal with
      | |- context [if ?c then _ else _] =>
          match c with
          | ?f ?n ?st =>
              match type of f with
              | Faults =>
                  first
                    [ match goal with
                      | H : fault_free f |- _ => rewrite (H n st)
                      end
                    | match goal with
                      | H : selects_ok f |- _ => rewrite (H n st eq_refl)
                      end
                    | destruct c eqn:? ]
              end
          end
      end ];
    proj; cbn [Account.id new_account_row]).

(** What a POST on [/accounts/] does to the tables, whatever raises. *)
Lemma post_accounts_cases (fl : Faults) (a : AccountCreate.t) (db : Db) :
  db_of (post_accounts fl a db) = db
  \/ (AccountCreate.valid a = true
      /\ existsb (same_owner (AccountCreate.user_id a)
                             (AccountCreate.currency a)) (account db) = false
      /\ String.length (AccountCreate.currency a) = 3%nat
      /\ db_of (post_accounts fl a db)
         = mkDb (account db ++ [new_account_row db a]) (transaction db)
                (ledger_entry db)).
Proof.
  unfold post_accounts, db_of.
  destruct (AccountCreate.valid a) eqn:V; [|now left].
  exec_accounts; try (now left).
  all: fold (same_owner (AccountCreate.user_id a) (AccountCreate.currency a)).
  all: destruct (find _ _) eqn:F; exec_accounts; try (now left).
  all: apply find_none_existsb in F; rewrite F; cbn [negb andb].
  all: destruct (Nat.eqb_spec (String.length (AccountCreate.currency a)) 3);
    exec_accounts; try (now left).
  all: right; now repeat split.
Qed.

Lemma existsb_same_owner (u c : string) (l : list Account.t) :
  existsb (same_owner u c) l = true <-> In (u, c) (map owner l).
Proof.
  rewrite existsb_exists, in_map_iff. unfold same_owner, owner.
  split; intros (x & H1 & H2); exists x.
  - apply andb_true_iff in H2. destruct H2 as [E1 E2].
    apply String.eqb_eq in E1, E2. now subst.
  - injection H1 as E1 E2. split; [assumption|].
    subst. now rewrite !String.eqb_refl.
Qed.

Lemma NoDup_snoc {A} (l : list A) (x : A) :
  NoDup l -> ~ In x l -> NoDup (l ++ [x]).
Proof.
  intros H Hx. induction H as [|y l Hy H IH]; cbn [app].
  - constructor; [intros []|constructor].
  - constructor.
    + rewrite in_app_iff. cbn [In]. intros [K|[K|[]]]; [now apply Hy|].
      subst. apply Hx. now left.
    + apply IH. intros K. apply Hx. now right.
Qed.

(** X2. When the user already has an account in the currency, and the query
    raises no unexpected error, the creation is answered 409 with the message
    naming the user and the currency; no INSERT is sent and the database is
    as it was. *)
Theorem create_account_conflict :
  forall (fl : Faults) (a : AccountCreate.t) (db : Db) (r : Account.t),
    selects_ok fl ->
    AccountCreate.valid a = true ->
    In r (account db) ->
    Account.user_id r = AccountCreate.user_id a ->
    Account.currency r = AccountCreate.currency a ->
    response (post_accounts fl a db)
    = Failed 409 ("Account for user_id '" ++ AccountCreate.user_id a
                  ++ "' with currency '" ++ AccountCreate.currency a
                  ++ "' already exists.")
    /\ db_of (post_accounts fl a db) = db
    /\ existsb is_write (statements (post_accounts fl a db)) = false.
Proof.
  intros fl a db r Hs V Hr Eu Ec.
  assert (F : exists r', find (fun x => (Account.user_id x =? AccountCreate.user_id a)%string
                             && (Account.currency x =? AccountCreate.currency a)%string)
                   (account db) = Some r').
  { destruct (find _ (account db)) as [r'|] eqn:F; [now exists r'|].
    exfalso. apply (find_none _ _ F) in Hr.
    now rewrite Eu, Ec, !String.eqb_refl in Hr. }
  destruct F as (r' & F).
  unfold post_accounts, response, db_of, statements. rewrite V.
  exec_accounts. rewrite F. exec_accounts. now repeat split.
Qed.

Lemma create_account_conflict_witness :
  response (post_accounts no_faults (AccountCreate.mk "U1" "savings" "USD")
              sample_db)
  = Failed 409 "Account for user_id 'U1' with currency 'USD' already exists.".
Proof.
  exact (proj1 (create_account_conflict no_faults
                  (AccountCreate.mk "U1" "savings" "USD") sample_db
                  (usd_account 1 "U1")
                  (no_fault_selects _ no_fault_plan) eq_refl
                  (or_introl eq_refl) eq_refl eq_refl)).
Defined.

(** X3. The schema accepts a currency of fewer than three characters, the
    table does not: when no statement raises an unexpected error, such a
    creation passes the validation and the duplicate check, its INSERT breaks
    [CHECK (LENGTH(currency) = 3)], and the request is answered 500 with the
    database as it was. *)
Theorem create_account_short_currency :
  forall (fl : Faults) (a : AccountCreate.t) (db : Db),
    fault_free fl ->
    AccountCreate.valid a = true ->
    String.length (AccountCreate.currency a) <> 3%nat ->
    existsb (same_owner (AccountCreate.user_id a) (AccountCreate.currency a))
            (account db) = false ->
    response (post_accounts fl a db) = Failed 500 "Internal Server Error"
    /\ db_of (post_accounts fl a db) = db
    /\ existsb is_write (statements (post_accounts fl a db)) = true.
Proof.
  intros fl a db Hff V L E.
  assert (F : find (fun x => (Account.user_id x =? AccountCreate.user_id a)%string
                             && (Account.currency x =? AccountCreate.currency a)%string)
                   (account db) = None).
  { now apply (find_none_existsb
                 (same_owner (AccountCreate.user_id a) (AccountCreate.currency a))). }
  apply Nat.eqb_neq in L.
  unfold post_accounts, response, db_of, statements. rewrite V.
  exec_accounts. rewrite F. exec_accounts. rewrite E, L. cbn [negb andb].
  exec_accounts. now repeat split.
Qed.

Lemma create_account_short_currency_witness :
  response (post_accounts no_faults (AccountCreate.mk "U3" "savings" "US")
              sample_db)
  = Failed 500 "Internal Server Error"
  /\ db_of (post_accounts no_faults (AccountCreate.mk "U3" "savings" "US")
              sample_db) = sample_db.
Proof.
  destruct (create_account_short_currency no_faults
              (AccountCreate.mk "U3" "savings" "US") sample_db
              no_fault_plan eq_refl ltac:(discriminate) eq_refl)
    as (R & D & _).
  exact (conj R D).
Defined.

(** The accounts after a request are the accounts before, or those with one
    new valid row. *)
Lemma serve_accounts (fl : Faults) (r : Request) (db : Db) :
  account (db_of (serve fl r db)) = account db
  \/ exists a,
      existsb (same_owner (AccountCreate.user_id a) (AccountCreate.currency a))
              (account db) = false
      /\ String.length (AccountCreate.currency a) = 3%nat
      /\ account (db_of (serve fl r db)) = account db ++ [new_account_row db a].
Proof.
  destruct r as [a|i|b|b|b]; cbn [serve].
  - destruct (post_accounts_cases fl a db) as [->|(_ & E & L & ->)];
      [now left|].
    right. now exists a.
  - left. now rewrite get_account_db.
  - left. destruct (post_transfers_cases fl b db) as [[_ ->]|C];
      [reflexivity|].
    now destruct C as (? & ? & ? & _ & _ & _ & _ & _ & _ & _ & _ & ->).
  - left. destruct (post_deposits_cases fl b db) as [[_ ->]|C];
      [reflexivity|].
    now destruct C as (? & ? & _ & _ & _ & _ & ->).
  - left. destruct (post_withdrawals_cases fl b db) as [[_ ->]|C];
      [reflexivity|].
    now destruct C as (? & ? & _ & _ & _ & _ & _ & ->).
Qed.

Lemma accounts_wf_step (fl : Faults) (r : Request) (db : Db) :
  accounts_wf db -> accounts_wf (db_of (serve fl r db)).
Proof.
  unfold accounts_wf. intros (Hid & Hown & Hall).
  destruct (serve_accounts fl r db) as [->|(a & E & L & ->)];
    [now repeat split|].
  rewrite !map_app. cbn [map]. repeat split.
  - apply NoDup_snoc; [assumption|].
    intros K. apply next_id_fresh in K.
    cbn [new_account_row Account.id] in K. lia.
  - apply NoDup_snoc; [assumption|].
    intros K. unfold owner at 1 in K.
    cbn [new_account_row Account.user_id Account.currency] in K.
    apply (proj2 (existsb_same_owner _ _ _)) in K. congruence.
  - apply Forall_app. split; [assumption|]. now repeat constructor.
Qed.



Lemma post_accounts_ok (fl : Faults) (a : AccountCreate.t) (db : Db) :
  fault_free fl ->
  AccountCreate.valid a = true ->
  String.length (AccountCreate.currency a) = 3%nat ->
  existsb (same_owner (AccountCreate.user_id a) (AccountCreate.currency a))
          (account db) = false ->
  db_of (post_accounts fl a db)
  = mkDb (account db ++ [new_account_row db a]) (transaction db)
         (ledger_entry db).
Proof.
  intros Hff V L E.
  assert (F : find (fun x => (Account.user_id x =? AccountCreate.user_id a)%string
                             && (Account.currency x =? AccountCreate.currency a)%string)
                   (account db) = None).
  { now apply (find_none_existsb
                 (same_owner (AccountCreate.user_id a) (AccountCreate.currency a))). }
  unfold post_accounts, db_of. rewrite V. exec_accounts.
  rewrite F. exec_accounts. rewrite E, L. cbn [negb andb Nat.eqb].
  exec_accounts. reflexivity.
Qed.

Lemma get_account_ok (fl : Faults) (i : Z) (db : Db) :
  selects_ok fl ->
  response (get_account fl i db)
  = match find_account db i with
    | None => Failed 404 ("Account with ID " ++ str_of_int i ++ " not found.")
    | Some a => Success (AccountResponse a (derived_balance db i))
    end.
Proof.
  intros Hs. unfold response. exec_accounts.
  fold (find_account db i).
  destruct (find_account db i); exec_accounts; reflexivity.
Qed.

Lemma derived_balance_unknown_account (db : Db) (i : Z) :
  fk_account db ->
  ~ In i (map Account.id (account db)) ->
  derived_balance db i = 0.
Proof.
  unfold fk_account, derived_balance, entries_of. intros H Hi.
  induction (ledger_entry db) as [|e es IH]; [reflexivity|].
  inversion H as [|? ? He Hes]; subst. cbn [filter].
  destruct (Z.eqb_spec (LedgerEntry.account_id e) i) as [E|_].
  - exfalso. apply Hi. now rewrite <- E.
  - cbn [andb]. now apply IH.
Qed.

Lemma total_balance_app (a : list Account.t) (t : list Transaction.t)
  (es es' : list LedgerEntry.t) :
  total_balance (mkDb a t (es ++ es'))
  = total_balance (mkDb a t es) + total_balance (mkDb a t es').
Proof.
  unfold total_balance, amounts_of. cbn [ledger_entry].
  rewrite !filter_app, !map_app, !sum_app. lia.
Qed.

Lemma total_balance_ext (db1 db2 : Db) :
  ledger_entry db1 = ledger_entry db2 -> total_balance db1 = total_balance db2.
Proof. unfold total_balance. now intros ->. Qed.

Lemma total_balance_after_transfer (db : Db) (req : TransferCreate.t) :
  total_balance (after_transfer db req) = total_balance db.
Proof.
  unfold after_transfer. rewrite total_balance_app.
  rewrite (total_balance_ext _ db) by reflexivity.
  unfold total_balance at 2, amounts_of, ledger_row.
  cbn [ledger_entry filter LedgerEntry.entry_type String.eqb Ascii.eqb
       Bool.eqb map LedgerEntry.amount].
  unfold sum. cbn [fold_right]. lia.
Qed.

Lemma total_balance_after_deposit (db : Db) (req : TransferCreate.t) :
  total_balance (after_deposit db req)
  = total_balance db + TransferCreate.amount req.
Proof.
  unfold after_deposit. rewrite total_balance_app.
  rewrite (total_balance_ext _ db) by reflexivity.
  unfold total_balance at 2, amounts_of, ledger_row.
  cbn [ledger_entry filter LedgerEntry.entry_type String.eqb Ascii.eqb
       Bool.eqb map LedgerEntry.amount].
  unfold sum. cbn [fold_right]. lia.
Qed.

Lemma total_balance_after_withdrawal (db : Db) (req : TransferCreate.t) :
  total_balance (after_withdrawal db req)
  = total_balance db - TransferCreate.amount req.
Proof.
  unfold after_withdrawal. rewrite total_balance_app.
  rewrite (total_balance_ext _ db) by reflexivity.
  unfold total_balance at 2, amounts_of, ledger_row.
  cbn [ledger_entry filter LedgerEntry.entry_type String.eqb Ascii.eqb
       Bool.eqb map LedgerEntry.amount].
  unfold sum. cbn [fold_right]. lia.
Qed.

Lemma find_account_ext (db1 db2 : Db) (i : Z) :
  account db1 = account db2 -> find_account db1 i = find_account db2 i.
Proof. unfold find_account. now intros ->. Qed.

(* ================================================================== *)
(** ** Missing accounts, unexpected errors and locks *)

Ltac leaf := repeat split; intros; try discriminate; try congruence;
             try tauto; try lia.

Lemma post_transfers_not_found (fl : Faults) (b : TransferCreate.body)
  (db : Db) (req : TransferCreate.t) :
  selects_ok fl ->
  TransferCreate.validate b = Some req ->
  (failure (response (post_transfers fl b db)) = Some NotFound
   <-> find_account db (TransferCreate.source_account_id req) = None
       \/ find_account db (TransferCreate.destination_account_id req) = None)
  /\ (find_account db (TransferCreate.source_account_id req) = None
      \/ find_account db (TransferCreate.destination_account_id req) = None ->
      statements (post_transfers fl b db)
      = [SELECT_account_FOR_UPDATE (TransferCreate.source_account_id req);
         SELECT_account_FOR_UPDATE (TransferCreate.destination_account_id req);
         ROLLBACK]).
Proof.
  intros Hs V. unfold post_transfers, with_body. rewrite V.
  unfold create_transfer. exec.
  all: leaf.
  all: intuition discriminate.
Qed.

Lemma post_deposits_not_found (fl : Faults) (b : TransferCreate.body)
  (db : Db) (req : TransferCreate.t) :
  selects_ok fl ->
  TransferCreate.validate b = Some req ->
  (failure (response (post_deposits fl b db)) = Some NotFound
   <-> find_account db (TransferCreate.destination_account_id req) = None)
  /\ (find_account db (TransferCreate.destination_account_id req) = None ->
      statements (post_deposits fl b db)
      = [SELECT_account_FOR_UPDATE (TransferCreate.destination_account_id req);
         ROLLBACK]).
Proof.
  intros Hs V. unfold post_deposits, with_body. rewrite V.
  unfold create_deposit. exec.
  all: leaf.
Qed.

Lemma post_withdrawals_not_found (fl : Faults) (b : TransferCreate.body)
  (db : Db) (req : TransferCreate.t) :
  selects_ok fl ->
  TransferCreate.validate b = Some req ->
  (failure (response (post_withdrawals fl b db)) = Some NotFound
   <-> find_account db (TransferCreate.source_account_id req) = None)
  /\ (find_account db (TransferCreate.source_account_id req) = None ->
      statements (post_withdrawals fl b db)
      = [SELECT_account_FOR_UPDATE (TransferCreate.source_account_id req);
         ROLLBACK]).
Proof.
  intros Hs V. unfold post_withdrawals, with_body. rewrite V.
  unfold create_withdrawal. exec.
  all: leaf.
Qed.

(** X11. When the queries raise no unexpected error, a transfer is answered
    NotFound exactly when its source or its destination is missing, a deposit
    exactly when its destination is missing and a withdrawal exactly when its
    source is missing.  A transfer locks both identifiers before it looks at
    either result: with a missing account its statements are the two locks
    and the ROLLBACK, with no read of a balance and no INSERT. *)
Theorem missing_account_is_not_found :
  forall (fl : Faults) (b : TransferCreate.body) (db : Db)
         (req : TransferCreate.t),
    selects_ok fl ->
    TransferCreate.validate b = Some req ->
    let src := TransferCreate.source_account_id req in
    let dst := TransferCreate.destination_account_id req in
    (failure (response (post_transfers fl b db)) = Some NotFound
     <-> find_account db src = None \/ find_account db dst = None)
    /\ (find_account db src = None \/ find_account db dst = None ->
        statements (post_transfers fl b db)
        = [SELECT_account_FOR_UPDATE src; SELECT_account_FOR_UPDATE dst;
           ROLLBACK])
    /\ (failure (response (post_deposits fl b db)) = Some NotFound
        <-> find_account db dst = None)
    /\ (failure (response (post_withdrawals fl b db)) = Some NotFound
        <-> find_account db src = None).
Proof.
  intros fl b db req Hs V src dst. subst src dst.
  destruct (post_transfers_not_found fl b db req Hs V) as [T1 T2].
  destruct (post_deposits_not_found fl b db req Hs V) as [D1 _].
  destruct (post_withdrawals_not_found fl b db req Hs V) as [W1 _].
  exact (conj T1 (conj T2 (conj D1 W1))).
Qed.

Lemma missing_account_is_not_found_witness :
  failure (response (post_transfers no_faults
                       (sample_body 1 9 400000 "USD") sample_db))
  = Some NotFound
  /\ statements (post_transfers no_faults
                   (sample_body 9 1 400000 "USD") sample_db)
     = [SELECT_account_FOR_UPDATE 9; SELECT_account_FOR_UPDATE 1; ROLLBACK].
Proof.
  split.
  - apply (proj1 (missing_account_is_not_found no_faults
                    (sample_body 1 9 400000 "USD") sample_db
                    (TransferCreate.mk 1 9 400000 "USD" None)
                    (no_fault_selects _ no_fault_plan) eq_refl)).
    right. reflexivity.
  - apply (proj1 (proj2 (missing_account_is_not_found no_faults
                    (sample_body 9 1 400000 "USD") sample_db
                    (TransferCreate.mk 9 1 400000 "USD" None)
                    (no_fault_selects _ no_fault_plan) eq_refl))).
    left. reflexivity.
Defined.

Ltac raised_leaf :=
  unfold response, statements; cbn [fst snd some_raised];
  repeat match goal with
         | H : ?f _ _ = _ |- _ =>
             match type of f with Faults => rewrite H end
         end;
  cbn [orb]; split; intros; try discriminate; try reflexivity; try lia.

Lemma post_transfers_internal (fl : Faults) (b : TransferCreate.body)
  (db : Db) :
  failure (response (post_transfers fl b db)) = Some Internal
  <-> some_raised fl 0 (statements (post_transfers fl b db)) = true.
Proof.
  unfold post_transfers, with_body.
  destruct (TransferCreate.validate b) as [req|] eqn:V;
    [|split; intros [=]].
  pose proof (validate_sound b req V) as (Ha & _).
  unfold create_transfer. exec.
  all: raised_leaf.
Qed.

Lemma post_deposits_internal (fl : Faults) (b : TransferCreate.body)
  (db : Db) :
  failure (response (post_deposits fl b db)) = Some Internal
  <-> some_raised fl 0 (statements (post_deposits fl b db)) = true.
Proof.
  unfold post_deposits, with_body.
  destruct (TransferCreate.validate b) as [req|] eqn:V;
    [|split; intros [=]].
  pose proof (validate_sound b req V) as (Ha & _).
  unfold create_deposit. exec.
  all: raised_leaf.
Qed.

Lemma post_withdrawals_internal (fl : Faults) (b : TransferCreate.body)
  (db : Db) :
  failure (response (post_withdrawals fl b db)) = Some Internal
  <-> some_raised fl 0 (statements (post_withdrawals fl b db)) = true.
Proof.
  unfold post_withdrawals, with_body.
  destruct (TransferCreate.validate b) as [req|] eqn:V;
    [|split; intros [=]].
  pose proof (validate_sound b req V) as (Ha & _).
  unfold create_withdrawal. exec.
  all: raised_leaf.
Qed.

Ltac lock_leaf :=
  unfold statements; cbn [fst snd under_lock has_id existsb
                          LedgerEntry.init_account_id];
  rewrite ?Z.eqb_refl, ?orb_true_r; reflexivity.

Lemma post_transfers_under_lock (fl : Faults) (b : TransferCreate.body)
  (db : Db) :
  under_lock [] (statements (post_transfers fl b db)) = true.
Proof.
  unfold post_transfers, with_body.
  destruct (TransferCreate.validate b) as [req|] eqn:V; [|reflexivity].
  unfold create_transfer. exec.
  all: lock_leaf.
Qed.

Lemma post_deposits_under_lock (fl : Faults) (b : TransferCreate.body)
  (db : Db) :
  under_lock [] (statements (post_deposits fl b db)) = true.
Proof.
  unfold post_deposits, with_body.
  destruct (TransferCreate.validate b) as [req|] eqn:V; [|reflexivity].
  unfold create_deposit. exec.
  all: lock_leaf.
Qed.

Lemma post_withdrawals_under_lock (fl : Faults) (b : TransferCreate.body)
  (db : Db) :
  under_lock [] (statements (post_withdrawals fl b db)) = true.
Proof.
  unfold post_withdrawals, with_body.
  destruct (TransferCreate.validate b) as [req|] eqn:V; [|reflexivity].
  unfold create_withdrawal. exec.
  all: lock_leaf.
Qed.

(** X13. In every run of a transfer, a deposit or a withdrawal, whatever
    raises, the entries of an account are read and an entry is inserted on an
    account only after that account has been locked by the same request. *)
Theorem balance_reads_and_entries_come_after_the_lock :
  forall (fl : Faults) (b : TransferCreate.body) (db : Db),
    under_lock [] (statements (post_transfers fl b db)) = true
    /\ under_lock [] (statements (post_deposits fl b db)) = true
    /\ under_lock [] (statements (post_withdrawals fl b db)) = true.
Proof.
  intros fl b db. split; [|split].
  - apply post_transfers_under_lock.
  - apply post_deposits_under_lock.
  - apply post_withdrawals_under_lock.
Qed.

(* ================================================================== *)
(** ** The tables along a sequence of requests *)

(** What one request does to the three tables, whatever raises. *)
Lemma serve_tables (fl : Faults) (r : Request) (db : Db) :
  (transaction (db_of (serve fl r db)) = transaction db
   /\ ledger_entry (db_of (serve fl r db)) = ledger_entry db
   /\ extends (account db) (account (db_of (serve fl r db))))
  \/ exists req,
      0 < TransferCreate.amount req
      /\ ((db_of (serve fl r db) = after_transfer db req
           /\ In (TransferCreate.source_account_id req)
                 (map Account.id (account db))
           /\ In (TransferCreate.destination_account_id req)
                 (map Account.id (account db)))
          \/ (db_of (serve fl r db) = after_deposit db req
              /\ In (TransferCreate.destination_account_id req)
                    (map Account.id (account db)))
          \/ (db_of (serve fl r db) = after_withdrawal db req
              /\ In (TransferCreate.source_account_id req)
                    (map Account.id (account db)))).
Proof.
  destruct r as [a|i|b|b|b]; cbn [serve].
  - left. destruct (post_accounts_ledger fl a db) as [E1 E2].
    repeat split; try assumption.
    destruct (serve_accounts fl (POST_accounts a) db) as [E|(x & _ & _ & E)];
      cbn [serve] in E; rewrite E.
    + exists []. now rewrite app_nil_r.
    + now eexists.
  - left. rewrite get_account_db. repeat split.
    exists []. now rewrite app_nil_r.
  - destruct (post_transfers_cases fl b db) as [[_ ->]|C].
    + left. repeat split. exists []. now rewrite app_nil_r.
    + destruct C as (req & sa & da & _ & Hs & Hd & _ & _ & _ & Ha & _ & ->).
      right. exists req. split; [exact Ha|]. left.
      apply find_account_has_id, has_id_In in Hs, Hd. now repeat split.
  - destruct (post_deposits_cases fl b db) as [[_ ->]|C].
    + left. repeat split. exists []. now rewrite app_nil_r.
    + destruct C as (req & da & _ & Hd & Ha & _ & ->).
      right. exists req. split; [exact Ha|]. right. left.
      apply find_account_has_id, has_id_In in Hd. now split.
  - destruct (post_withdrawals_cases fl b db) as [[_ ->]|C].
    + left. repeat split. exists []. now rewrite app_nil_r.
    + destruct C as (req & sa & _ & Hs & _ & Ha & _ & ->).
      right. exists req. split; [exact Ha|]. right. right.
      apply find_account_has_id, has_id_In in Hs. now split.
Qed.

Lemma extends_refl {A} (l : list A) : extends l l.
Proof. exists []. now rewrite app_nil_r. Qed.

Lemma extends_trans {A} (l1 l2 l3 : list A) :
  extends l1 l2 -> extends l2 l3 -> extends l1 l3.
Proof.
  intros [k1 ->] [k2 ->]. exists (k1 ++ k2). now rewrite app_assoc.
Qed.

Lemma serve_extends (fl : Faults) (r : Request) (db : Db) :
  extends (account db) (account (db_of (serve fl r db)))
  /\ extends (transaction db) (transaction (db_of (serve fl r db)))
  /\ extends (ledger_entry db) (ledger_entry (db_of (serve fl r db))).
Proof.
  destruct (serve_tables fl r db) as [(E1 & E2 & E3)|(req & _ & C)].
  - rewrite E1, E2. repeat split; [assumption|apply extends_refl..].
  - destruct C as [(-> & _)|[(-> & _)|(-> & _)]];
      cbn [after_transfer after_deposit after_withdrawal account transaction
           ledger_entry];
      repeat split; try apply extends_refl; now eexists.
Qed.

Lemma filter_all {A} (f : A -> bool) (l : list A) :
  Forall (fun x => f x = true) l -> filter f l = l.
Proof.
  induction 1 as [|x l Hx _ IH]; cbn [filter]; [reflexivity|].
  now rewrite Hx, IH.
Qed.

Lemma filter_none {A} (f : A -> bool) (l : list A) :
  Forall (fun x => f x = false) l -> filter f l = [].
Proof.
  induction 1 as [|x l Hx _ IH]; cbn [filter]; [reflexivity|].
  now rewrite Hx.
Qed.

Lemma NoDup_next_ids (ids : list Z) :
  NoDup ids ->
  NoDup (ids ++ [next_id ids]) /\ NoDup (ids ++ [next_id ids; next_id ids + 1]).
Proof.
  intros H.
  assert (H1 : NoDup (ids ++ [next_id ids])).
  { apply NoDup_snoc; [assumption|].
    intros K. apply next_id_fresh in K. lia. }
  split; [exact H1|].
  change [next_id ids; next_id ids + 1]
    with ([next_id ids] ++ [next_id ids + 1]).
  rewrite app_assoc. apply NoDup_snoc; [assumption|].
  rewrite in_app_iff. cbn [In]. intros [K|[K|[]]]; [|lia].
  apply next_id_fresh in K. lia.
Qed.

Lemma entries_wf_append (db : Db) (t : Transaction.t)
  (es : list LedgerEntry.t) :
  entries_wf db ->
  NoDup (map LedgerEntry.id (ledger_entry db ++ es)) ->
  Forall (fun e => LedgerEntry.transaction_id e = Transaction.id t
                   /\ In (LedgerEntry.account_id e)
                         (map Account.id (account db))
                   /\ 0 < LedgerEntry.amount e
                   /\ (LedgerEntry.entry_type e = "debit"
                       \/ LedgerEntry.entry_type e = "credit")) es ->
  entries_wf (mkDb (account db) (transaction db ++ [t])
                   (ledger_entry db ++ es)).
Proof.
  unfold entries_wf, fk_transaction, fk_account.
  cbn [account transaction ledger_entry].
  intros (_ & Ft & Fa & Fp) N Hes. repeat split.
  - exact N.
  - apply Forall_app. split.
    + eapply Forall_impl; [|exact Ft]. cbn beta. intros e He.
      rewrite map_app, in_app_iff. now left.
    + eapply Forall_impl; [|exact Hes]. cbn beta. intros e (He & _).
      rewrite map_app, in_app_iff, He. right. now left.
  - apply Forall_app. split; [exact Fa|].
    eapply Forall_impl; [|exact Hes]. cbn beta. tauto.
  - apply Forall_app. split; [exact Fp|].
    eapply Forall_impl; [|exact Hes]. cbn beta. tauto.
Qed.

Lemma entries_wf_accounts (db : Db) (accounts : list Account.t) :
  entries_wf db ->
  extends (account db) accounts ->
  entries_wf (mkDb accounts (transaction db) (ledger_entry db)).
Proof.
  unfold entries_wf, fk_transaction, fk_account.
  cbn [account transaction ledger_entry].
  intros (N & Ft & Fa & Fp) [k ->]. repeat split; try assumption.
  eapply Forall_impl; [|exact Fa]. cbn beta. intros e He.
  rewrite map_app, in_app_iff. now left.
Qed.

Lemma entries_wf_step (fl : Faults) (r : Request) (db : Db) :
  entries_wf db -> entries_wf (db_of (serve fl r db)).
Proof.
  intros H.
  destruct (serve_tables fl r db) as [(E1 & E2 & E3)|(req & Ha & C)].
  - pose proof (entries_wf_accounts db _ H E3) as K.
    destruct (db_of (serve fl r db)) as [a t e].
    cbn [account transaction ledger_entry] in *. now subst.
  - destruct (NoDup_next_ids (map LedgerEntry.id (ledger_entry db))
                (proj1 H)) as [N1 N2].
    destruct C as [(-> & Hs & Hd)|[(-> & Hd)|(-> & Hs)]];
      apply entries_wf_append; try assumption.
    + rewrite map_app. cbn [map ledger_row LedgerEntry.id].
      now rewrite Z.add_0_r.
    + repeat constructor; cbn [ledger_row LedgerEntry.account_id
                               LedgerEntry.amount]; try assumption;
        tauto.
    + rewrite map_app. cbn [map ledger_row LedgerEntry.id].
      now rewrite Z.add_0_r.
    + repeat constructor; cbn [ledger_row LedgerEntry.account_id
                               LedgerEntry.amount]; try assumption;
        tauto.
    + rewrite map_app. cbn [map ledger_row LedgerEntry.id].
      now rewrite Z.add_0_r.
    + repeat constructor; cbn [ledger_row LedgerEntry.account_id
                               LedgerEntry.amount]; try assumption;
        tauto.
Qed.



Lemma transactions_wf_append (db : Db) (t : Transaction.t)
  (es : list LedgerEntry.t) :
  transactions_wf db ->
  Transaction.id t = next_id (map Transaction.id (transaction db)) ->
  Transaction.status t = "completed" ->
  Forall (fun e => LedgerEntry.transaction_id e = Transaction.id t) es ->
  entries_match t es ->
  transactions_wf (mkDb (account db) (transaction db ++ [t])
                        (ledger_entry db ++ es)).
Proof.
  unfold transactions_wf. intros (N & Ft & Hall) Ht Hst Hes Hm.
  assert (Ft' : fk_transaction (mkDb (account db) (transaction db ++ [t])
                                     (ledger_entry db ++ es))).
  { unfold fk_transaction in *. cbn [transaction ledger_entry].
    apply Forall_app. split.
    - eapply Forall_impl; [|exact Ft]. cbn beta. intros e He.
      rewrite map_app, in_app_iff. now left.
    - eapply Forall_impl; [|exact Hes]. cbn beta. intros e He.
      rewrite map_app, in_app_iff, He. right. now left. }
  split; [|split; [exact Ft'|]]; cbn [transaction].
  - rewrite map_app. cbn [map]. apply NoDup_snoc; [exact N|].
    rewrite Ht. intros K. apply next_id_fresh in K. lia.
  - apply Forall_app. split.
    + rewrite Forall_forall in Hall |- *. intros t0 H0.
      destruct (Hall t0 H0) as [S0 M0]. split; [exact S0|].
      unfold entries_of_transaction in *. cbn [ledger_entry].
      rewrite filter_app, (filter_none _ es), app_nil_r; [exact M0|].
      eapply Forall_impl; [|exact Hes]. cbn beta. intros e He.
      apply Z.eqb_neq. rewrite He, Ht.
      pose proof (next_id_fresh _ _ (in_map Transaction.id _ _ H0)). lia.
    + constructor; [|constructor]. split; [exact Hst|].
      unfold entries_of_transaction. cbn [ledger_entry].
      rewrite filter_app, Ht, (no_entry_of_next_transaction db Ft).
      rewrite filter_all; [exact Hm|].
      eapply Forall_impl; [|exact Hes]. cbn beta. intros e He.
      apply Z.eqb_eq. now rewrite He, Ht.
Qed.

Lemma transactions_wf_step (fl : Faults) (r : Request) (db : Db) :
  transactions_wf db -> transactions_wf (db_of (serve fl r db)).
Proof.
  intros H.
  destruct (serve_tables fl r db) as [(E1 & E2 & _)|(req & Ha & C)].
  - unfold transactions_wf, fk_transaction, entries_of_transaction in *.
    now rewrite E1, E2.
  - destruct C as [(-> & _)|[(-> & _)|(-> & _)]];
      apply transactions_wf_append; try assumption; try reflexivity.
    + now repeat constructor.
    + left. split; [reflexivity|]. do 2 eexists. now repeat split.
    + now repeat constructor.
    + right. left. split; [reflexivity|]. eexists. now repeat split.
    + now repeat constructor.
    + right. right. split; [reflexivity|]. eexists. now repeat split.
Qed.



Lemma sum_map_ext {A} (f g : A -> Z) (l : list A) :
  (forall x, In x l -> f x = g x) -> sum (map f l) = sum (map g l).
Proof.
  unfold sum. induction l as [|x l IH]; intros H; cbn [map fold_right];
    [reflexivity|].
  rewrite (H x) by (now left). rewrite IH; [reflexivity|].
  intros y Hy. apply H. now right.
Qed.

Lemma sum_map_add {A} (f g : A -> Z) (l : list A) :
  sum (map (fun x => f x + g x) l) = sum (map f l) + sum (map g l).
Proof.
  unfold sum. induction l as [|x l IH]; cbn [map fold_right]; lia.
Qed.

Lemma sum_off_account (l : list Account.t) (k v : Z) :
  ~ In k (map Account.id l) ->
  sum (map (fun a => if k =? Account.id a then v else 0) l) = 0.
Proof.
  unfold sum. induction l as [|x l IH]; cbn [map fold_right In]; intros H;
    [reflexivity|].
  destruct (Z.eqb_spec k (Account.id x)) as [E|_].
  - exfalso. apply H. left. now symmetry.
  - rewrite IH; [reflexivity|]. intros K. apply H. now right.
Qed.

(** Adding [v] at the one account whose key is [k]. *)
Lemma sum_at_account (l : list Account.t) (k v : Z) :
  NoDup (map Account.id l) ->
  In k (map Account.id l) ->
  sum (map (fun a => if k =? Account.id a then v else 0) l) = v.
Proof.
  induction l as [|x l IH]; cbn [map In]; intros N H; [contradiction|].
  apply NoDup_cons_iff in N. destruct N as [Hx N'].
  unfold sum. cbn [fold_right]. fold (sum (map (fun a => if k =? Account.id a then v else 0) l)).
  destruct (Z.eqb_spec k (Account.id x)) as [E|E].
  - rewrite sum_off_account; [lia|]. now rewrite E.
  - destruct H as [H|H]; [congruence|]. rewrite (IH N' H). lia.
Qed.

Lemma total_of_type_snoc (ty : string) (a : list Account.t)
  (ts : list Transaction.t) (es : list LedgerEntry.t) (t : Transaction.t) :
  total_of_type ty (mkDb a (ts ++ [t]) es)
  = total_of_type ty (mkDb a ts es)
    + (if (Transaction.type t =? ty)%string then Transaction.amount t else 0).
Proof.
  unfold total_of_type. cbn [transaction].
  rewrite filter_app, map_app, sum_app. cbn [filter].
  destruct (Transaction.type t =? ty)%string; unfold sum; cbn; lia.
Qed.

Lemma total_of_type_ext (ty : string) (db1 db2 : Db) :
  transaction db1 = transaction db2 ->
  total_of_type ty db1 = total_of_type ty db2.
Proof. unfold total_of_type. now intros ->. Qed.

Lemma sum_of_balances_shift (db db' : Db) (f : Z -> Z) :
  account db' = account db ->
  (forall i, derived_balance db' i = derived_balance db i + f i) ->
  sum_of_balances db'
  = sum_of_balances db + sum (map (fun a => f (Account.id a)) (account db)).
Proof.
  intros Ea H. unfold sum_of_balances. rewrite Ea, <- sum_map_add.
  apply sum_map_ext. intros a _. apply H.
Qed.

Lemma money_accounted_step (fl : Faults) (r : Request) (db : Db) :
  accounts_wf db -> entries_wf db -> money_accounted db ->
  money_accounted (db_of (serve fl r db)).
Proof.
  intros (Nid & _) (_ & _ & Fa & _) M. unfold money_accounted in *.
  destruct (serve_tables fl r db) as [(E1 & E2 & _)|(req & Ha & C)].
  - rewrite (total_of_type_ext _ _ db E1), (total_of_type_ext _ _ db E1), <- M.
    unfold sum_of_balances.
    destruct (serve_accounts fl r db) as [->|(a & _ & _ & ->)].
    + apply sum_map_ext. intros x _. now apply derived_balance_ext.
    + rewrite map_app, sum_app. cbn [map].
      rewrite (derived_balance_ext _ db _ E2).
      rewrite (derived_balance_unknown_account db); [|assumption|].
      * unfold sum at 2. cbn [fold_right]. rewrite !Z.add_0_r.
        apply sum_map_ext. intros x _. now apply derived_balance_ext.
      * intros K. apply next_id_fresh in K.
        cbn [new_account_row Account.id] in K. lia.
  - destruct C as [(-> & Hs & Hd)|[(-> & Hd)|(-> & Hs)]].
    + rewrite (sum_of_balances_shift db _
                 (fun i => (if TransferCreate.source_account_id req =? i
                            then - TransferCreate.amount req else 0)
                           + (if TransferCreate.destination_account_id req =? i
                              then TransferCreate.amount req else 0)));
        [|reflexivity|].
      * rewrite sum_map_add, !sum_at_account by assumption.
        unfold after_transfer. rewrite !total_of_type_snoc.
        cbn [new_transaction_row Transaction.type String.eqb Ascii.eqb
             Bool.eqb].
        rewrite !(total_of_type_ext _ (mkDb _ _ _) db) by reflexivity. lia.
      * intros i. rewrite derived_balance_after_transfer.
        destruct (_ =? i), (_ =? i); lia.
    + rewrite (sum_of_balances_shift db _
                 (fun i => if TransferCreate.destination_account_id req =? i
                           then TransferCreate.amount req else 0));
        [|reflexivity|].
      * rewrite sum_at_account by assumption.
        unfold after_deposit. rewrite !total_of_type_snoc.
        cbn [new_transaction_row Transaction.type Transaction.amount
             String.eqb Ascii.eqb Bool.eqb].
        rewrite !(total_of_type_ext _ (mkDb _ _ _) db) by reflexivity. lia.
      * intros i. now rewrite derived_balance_after_deposit.
    + rewrite (sum_of_balances_shift db _
                 (fun i => if TransferCreate.source_account_id req =? i
                           then - TransferCreate.amount req else 0));
        [|reflexivity|].
      * rewrite sum_at_account by assumption.
        unfold after_withdrawal. rewrite !total_of_type_snoc.
        cbn [new_transaction_row Transaction.type Transaction.amount
             String.eqb Ascii.eqb Bool.eqb].
        rewrite !(total_of_type_ext _ (mkDb _ _ _) db) by reflexivity. lia.
      * intros i. rewrite derived_balance_after_withdrawal.
        destruct (_ =? i); lia.
Qed.



(* ================================================================== *)
(** ** Commit, rollback and the constraint on amounts *)

Ltac end_leaf :=
  unfold response, statements; cbn [fst snd succeeded failure last In];
  repeat split; intros; try discriminate; try congruence; try reflexivity;
  try (intuition discriminate).

Lemma post_transfers_ends (fl : Faults) (b : TransferCreate.body) (db : Db) :
  (succeeded (response (post_transfers fl b db)) <> None ->
   last (statements (post_transfers fl b db)) ROLLBACK = COMMIT
   /\ ~ In ROLLBACK (statements (post_transfers fl b db)))
  /\ (TransferCreate.validate b <> None ->
      failure (response (post_transfers fl b db)) <> None ->
      last (statements (post_transfers fl b db)) COMMIT = ROLLBACK).
Proof.
  unfold post_transfers, with_body.
  destruct (TransferCreate.validate b) as [req|] eqn:V; [|end_leaf].
  unfold create_transfer. exec.
  all: end_leaf.
Qed.

Lemma post_deposits_ends (fl : Faults) (b : TransferCreate.body) (db : Db) :
  (succeeded (response (post_deposits fl b db)) <> None ->
   last (statements (post_deposits fl b db)) ROLLBACK = COMMIT
   /\ ~ In ROLLBACK (statements (post_deposits fl b db)))
  /\ (TransferCreate.validate b <> None ->
      failure (response (post_deposits fl b db)) <> None ->
      last (statements (post_deposits fl b db)) COMMIT = ROLLBACK).
Proof.
  unfold post_deposits, with_body.
  destruct (TransferCreate.validate b) as [req|] eqn:V; [|end_leaf].
  unfold create_deposit. exec.
  all: end_leaf.
Qed.

Lemma post_withdrawals_ends (fl : Faults) (b : TransferCreate.body) (db : Db) :
  (succeeded (response (post_withdrawals fl b db)) <> None ->
   last (statements (post_withdrawals fl b db)) ROLLBACK = COMMIT
   /\ ~ In ROLLBACK (statements (post_withdrawals fl b db)))
  /\ (TransferCreate.validate b <> None ->
      failure (response (post_withdrawals fl b db)) <> None ->
      last (statements (post_withdrawals fl b db)) COMMIT = ROLLBACK).
Proof.
  unfold post_withdrawals, with_body.
  destruct (TransferCreate.validate b) as [req|] eqn:V; [|end_leaf].
  unfold create_withdrawal. exec.
  all: end_leaf.
Qed.

Lemma create_transfer_non_positive (fl : Faults) (req : TransferCreate.t)
  (db : Db) :
  TransferCreate.amount req <= 0 ->
  succeeded (response (with_get_db TransactionResponse (create_transfer req)
                         fl db)) = None.
Proof.
  intros H. unfold create_transfer. exec.
  all: try reflexivity; lia.
Qed.

Lemma create_deposit_non_positive (fl : Faults) (req : TransferCreate.t)
  (db : Db) :
  TransferCreate.amount req <= 0 ->
  succeeded (response (with_get_db TransactionResponse (create_deposit req)
                         fl db)) = None.
Proof.
  intros H. unfold create_deposit. exec.
  all: try reflexivity; lia.
Qed.

Lemma create_withdrawal_non_positive (fl : Faults) (req : TransferCreate.t)
  (db : Db) :
  TransferCreate.amount req <= 0 ->
  succeeded (response (with_get_db TransactionResponse (create_withdrawal req)
                         fl db)) = None.
Proof.
  intros H. unfold create_withdrawal. exec.
  all: try reflexivity; lia.
Qed.

Lemma with_get_db_failure (handler : M Transaction.t) (fl : Faults) (db : Db) :
  (forall s s' e, handler fl s = (inl e, s') -> stored s' = stored s) ->
  succeeded (response (with_get_db TransactionResponse handler fl db)) = None ->
  db_of (with_get_db TransactionResponse handler fl db) = db.
Proof.
  intros H. unfold with_get_db, db_of, response.
  destruct (handler fl (SessionLocal db)) as [[e|t] s1] eqn:R; cbn [fst snd].
  - intros _. rewrite keeps_stored_rollback. now apply H in R.
  - discriminate.
Qed.



(* ================================================================== *)
(** * The ledger operations on the database: proofs *)

(** ** Rounding to four decimals *)

Lemma quantize_on_grid (z : Z) : Pg.quantize (Pg.decimal_of z) = z.
Proof.
  unfold Pg.quantize, Pg.decimal_of. cbn [Qnum Qden].
  change (Z.pos 10000) with 10000.
  destruct (Z.abs_spec (z * 10000)) as [[H E]|[H E]]; rewrite E.
  - destruct (Z.eq_dec z 0) as [->|N]; [reflexivity|].
    rewrite Z.sgn_pos by lia.
    replace (2 * (z * 10000) + 10000) with (10000 + z * (2 * 10000)) by lia.
    rewrite Z.div_add by lia. change (10000 / (2 * 10000)) with 0. lia.
  - rewrite Z.sgn_neg by lia.
    replace (2 * - (z * 10000) + 10000) with (10000 + (- z) * (2 * 10000))
      by lia.
    rewrite Z.div_add by lia. change (10000 / (2 * 10000)) with 0. lia.
Qed.

(** Rounding never goes above a balance that covers the amount. *)
Lemma quantize_covered (balance : Z) (q : Q) :
  Pg.decimal_lt balance q = false -> Pg.quantize q <= balance.
Proof.
  unfold Pg.decimal_lt, Pg.quantize. intros H. apply Z.ltb_ge in H.
  set (d := Z.pos (Qden q)) in *. set (n := Qnum q * 10000) in *.
  assert (Hd : 0 < d) by (subst d; lia).
  destruct (Z.abs_spec n) as [[Hn E]|[Hn E]]; rewrite E.
  - destruct (Z.eq_dec n 0) as [N|N].
    + rewrite N. cbn [Z.sgn]. nia.
    + rewrite Z.sgn_pos by lia. rewrite Z.mul_1_l.
      apply Z.lt_succ_r. apply Z.div_lt_upper_bound; [lia|]. nia.
  - rewrite Z.sgn_neg by lia.
    assert (0 <= (2 * - n + d) / (2 * d)) by (apply Z.div_pos; lia).
    destruct (Z_le_gt_dec 0 balance); [lia|].
    assert (K : - balance <= (2 * - n + d) / (2 * d)).
    { apply Z.div_le_lower_bound; [lia|]. nia. }
    lia.
Qed.

Lemma quantize_positive (q : Q) : 0 < Pg.quantize q -> 0 < Qnum q.
Proof.
  unfold Pg.quantize. intros H.
  destruct (Z_lt_le_dec 0 (Qnum q)) as [|N]; [assumption|exfalso].
  assert (0 <= (2 * Z.abs (Qnum q * 10000) + Z.pos (Qden q))
               / (2 * Z.pos (Qden q))) by (apply Z.div_pos; lia).
  destruct (Z.eq_dec (Qnum q) 0) as [E|E].
  - rewrite E in H. cbn in H. lia.
  - rewrite Z.sgn_neg in H by lia. lia.
Qed.

Lemma numeric_19_4_quantize (q : Q) (z : Z) :
  Pg.numeric_19_4 q = Some z -> z = Pg.quantize q.
Proof.
  unfold Pg.numeric_19_4. destruct (_ <? _); [|discriminate].
  now intros [= <-].
Qed.

(** ** Running the session operations *)

Lemma pg_run_bind {A B} (m : Pg.M A) (k : A -> Pg.M B) (w : Pg.World)
  (s : Pg.Session) :
  Pg.bind m k w s = match m w s with
                    | (inr a, s') => k a w s'
                    | (inl e, s') => (inl e, s')
                    end.
Proof. reflexivity. Qed.

Lemma pg_run_execute (st : Pg.Stmt) (w : Pg.World) (s : Pg.Session) :
  Pg.execute st w s
  = (if Pg.raises w (List.length (Pg.log s)) st
     then inl DBAPIError else inr tt, pg_sent st s).
Proof. unfold Pg.execute, pg_sent. now destruct (Pg.raises _ _ _). Qed.

Lemma pg_run_query_account_for_update (i : Z) (w : Pg.World)
  (s : Pg.Session) :
  Pg.query_account_for_update i w s
  = (if Pg.raises w (List.length (Pg.log s)) (Pg.SELECT_account_FOR_UPDATE i)
     then inl DBAPIError else inr (find_account (Pg.current s) i),
     pg_sent (Pg.SELECT_account_FOR_UPDATE i) s).
Proof.
  unfold Pg.query_account_for_update. rewrite pg_run_bind, pg_run_execute.
  now destruct (Pg.raises _ _ _).
Qed.

Lemma pg_run_calculate_account_balance (i : Z) (w : Pg.World)
  (s : Pg.Session) :
  Pg.calculate_account_balance i w s
  = (if Pg.raises w (List.length (Pg.log s)) (Pg.SELECT_ledger_entry i)
     then inl DBAPIError else inr (derived_balance (Pg.current s) i),
     pg_sent (Pg.SELECT_ledger_entry i) s).
Proof.
  unfold Pg.calculate_account_balance, Pg.query_ledger_entries.
  rewrite !pg_run_bind, pg_run_execute.
  destruct (Pg.raises _ _ _); [reflexivity|].
  unfold Pg.get_current, Pg.ret, Pg.bind. cbn.
  now rewrite balance_loop_derived.
Qed.

Lemma pg_run_add_flush_transaction (ty st : string) (q : Q) (c : string)
  (d : option string) (w : Pg.World) (s : Pg.Session) :
  Pg.add_flush_transaction ty st q c d w s
  = let s1 := pg_sent (Pg.INSERT_transaction ty st q c d) s in
    let db := Pg.current s in
    let k := Pg.transaction_id_seq w (List.length (Pg.log s)) in
    if Pg.raises w (List.length (Pg.log s)) (Pg.INSERT_transaction ty st q c d)
    then (inl DBAPIError, s1)
    else
      match Pg.numeric_19_4 q with
      | Some z =>
          if negb (has_id k (map Transaction.id (transaction db)))
             && (Pg.characters c <=? 3)%nat
          then (inr k,
                Pg.mkSession (Pg.stored s1)
                  (mkDb (account db)
                        (transaction db ++ [Transaction.mk k ty st z c d])
                        (ledger_entry db))
                  (Pg.new s1) (Pg.dirty s1) (Pg.active s1) (Pg.log s1))
          else (inl DBAPIError, s1)
      | None => (inl DBAPIError, s1)
      end.
Proof.
  unfold Pg.add_flush_transaction, Pg.position.
  rewrite !pg_run_bind. cbn beta iota. rewrite ?pg_run_bind, pg_run_execute.
  destruct (Pg.raises _ _ _); [reflexivity|].
  unfold Pg.bind, Pg.ask, Pg.get_current, Pg.set_current, Pg.ret, Pg.raise.
  cbn -[Pg.numeric_19_4 has_id Pg.characters Nat.leb].
  destruct (Pg.numeric_19_4 q); [|reflexivity].
  now destruct (_ && _).
Qed.

Lemma pg_run_refresh_transaction (k : Z) (w : Pg.World) (s : Pg.Session) :
  Pg.refresh_transaction k w s
  = let s1 := pg_sent (Pg.SELECT_transaction k) s in
    if Pg.raises w (List.length (Pg.log s)) (Pg.SELECT_transaction k)
    then (inl DBAPIError, s1)
    else match find (fun r => Transaction.id r =? k)
                    (transaction (Pg.current s)) with
         | Some r => (inr r, s1)
         | None => (inl DBAPIError, s1)
         end.
Proof.
  unfold Pg.refresh_transaction. rewrite pg_run_bind, pg_run_execute.
  destruct (Pg.raises _ _ _); [reflexivity|].
  unfold Pg.bind, Pg.get_current. cbn.
  now destruct (find _ _).
Qed.

Lemma pg_run_update_amount (k z : Z) (w : Pg.World) (s : Pg.Session) :
  Pg.update_amount (k, z) w s
  = if Pg.float_differs w z
    then
      let s1 := pg_sent (Pg.UPDATE_transaction_amount k z) s in
      if Pg.raises w (List.length (Pg.log s))
                   (Pg.UPDATE_transaction_amount k z)
      then (inl DBAPIError, s1)
      else
        match Pg.float_numeric w z with
        | Some z' =>
            (inr tt,
             Pg.mkSession (Pg.stored s1)
               (mkDb (account (Pg.current s))
                     (map (Pg.with_amount k z') (transaction (Pg.current s)))
                     (ledger_entry (Pg.current s)))
               (Pg.new s1) (Pg.dirty s1) (Pg.active s1) (Pg.log s1))
        | None => (inl DBAPIError, s1)
        end
    else (inr tt, s).
Proof.
  unfold Pg.update_amount. rewrite pg_run_bind. unfold Pg.ask at 1.
  cbn [fst snd]. destruct (Pg.float_differs w z); [|reflexivity].
  rewrite pg_run_bind, pg_run_execute.
  destruct (Pg.raises _ _ _); [reflexivity|].
  rewrite pg_run_bind. unfold Pg.get_current at 1.
  now destruct (Pg.float_numeric w z).
Qed.

Lemma pg_run_insert_ledger_entries (es : list Pg.entry) (w : Pg.World)
  (s : Pg.Session) :
  Pg.insert_ledger_entries es w s
  = let s1 := pg_sent (Pg.INSERT_ledger_entry es) s in
    let db := Pg.current s in
    if Pg.raises w (List.length (Pg.log s)) (Pg.INSERT_ledger_entry es)
    then (inl DBAPIError, s1)
    else
      match Pg.ledger_rows (Pg.ledger_entry_id_seq w (List.length (Pg.log s)))
                           db (map LedgerEntry.id (ledger_entry db)) 0 es with
      | Some rows =>
          (inr tt,
           Pg.mkSession (Pg.stored s1)
             (mkDb (account db) (transaction db) (ledger_entry db ++ rows))
             (Pg.new s1) (Pg.dirty s1) (Pg.active s1) (Pg.log s1))
      | None => (inl DBAPIError, s1)
      end.
Proof.
  unfold Pg.insert_ledger_entries, Pg.position.
  rewrite !pg_run_bind. cbn beta iota. rewrite ?pg_run_bind, pg_run_execute.
  destruct (Pg.raises _ _ _); [reflexivity|].
  unfold Pg.bind, Pg.ask, Pg.get_current, Pg.set_current, Pg.raise.
  cbn -[Pg.ledger_rows].
  now destruct (Pg.ledger_rows _ _ _ _ _).
Qed.

(** ** Keys that are free *)

Lemma has_id_false (k : Z) (l : list Z) : has_id k l = false <-> ~ In k l.
Proof.
  rewrite <- has_id_In. destruct (has_id k l); split; intros; congruence.
Qed.

Lemma find_free_key (l : list Transaction.t) (r : Transaction.t) :
  has_id (Transaction.id r) (map Transaction.id l) = false ->
  find (fun x => Transaction.id x =? Transaction.id r) (l ++ [r]) = Some r.
Proof.
  intros H. apply has_id_false in H.
  induction l as [|x l IH]; cbn [app find].
  - now rewrite Z.eqb_refl.
  - destruct (Z.eqb_spec (Transaction.id x) (Transaction.id r)) as [E|_].
    + exfalso. apply H. left. exact E.
    + apply IH. intros K. apply H. now right.
Qed.

Lemma with_amount_free_key (l : list Transaction.t) (k z : Z) :
  has_id k (map Transaction.id l) = false ->
  map (Pg.with_amount k z) l = l.
Proof.
  intros H. apply has_id_false in H.
  induction l as [|x l IH]; cbn [map]; [reflexivity|].
  unfold Pg.with_amount at 1.
  destruct (Z.eqb_spec (Transaction.id x) k) as [E|_].
  - exfalso. apply H. left. exact E.
  - rewrite IH; [reflexivity|]. intros K. apply H. now right.
Qed.

Lemma with_amount_new_row (l : list Transaction.t) (k z z' : Z)
  (ty st c : string) (d : option string) :
  has_id k (map Transaction.id l) = false ->
  map (Pg.with_amount k z') (l ++ [Transaction.mk k ty st z c d])
  = l ++ [Transaction.mk k ty st z' c d].
Proof.
  intros H. rewrite map_app, (with_amount_free_key l k z' H). cbn [map].
  unfold Pg.with_amount. cbn [Transaction.id Transaction.type
    Transaction.status Transaction.currency Transaction.description].
  now rewrite Z.eqb_refl.
Qed.

Lemma find_new_row (l : list Transaction.t) (k z : Z) (ty st c : string)
  (d : option string) :
  has_id k (map Transaction.id l) = false ->
  find (fun x => Transaction.id x =? k) (l ++ [Transaction.mk k ty st z c d])
  = Some (Transaction.mk k ty st z c d).
Proof. intros H. now apply (find_free_key l (Transaction.mk k ty st z c d)). Qed.

Lemma has_id_new_row (l : list Transaction.t) (k z : Z) (ty st c : string)
  (d : option string) :
  has_id k (map Transaction.id (l ++ [Transaction.mk k ty st z c d])) = true.
Proof. rewrite map_app. apply has_id_snoc. Qed.

(** ** Symbolic execution of the handlers *)

Ltac pg_proj :=
  cbn [Pg.stored Pg.current Pg.new Pg.dirty Pg.active Pg.log pg_sent fst snd
       account transaction ledger_entry Transaction.id Transaction.amount
       Pg.entry_transaction_id Pg.entry_account_id Pg.entry_entry_type
       Pg.entry_amount Pg.update_all Pg.ledger_rows
       app List.length map andb orb negb].

Ltac pg_code :=
  first
    [ rewrite pg_run_bind
    | rewrite pg_run_query_account_for_update
    | rewrite pg_run_calculate_account_balance
    | rewrite pg_run_add_flush_transaction
    | rewrite pg_run_refresh_transaction
    | rewrite pg_run_update_amount
    | rewrite pg_run_insert_ledger_entries
    | rewrite pg_run_execute
    | progress unfold Pg.ret, Pg.raise, Pg.add_all, Pg.set_amount_float,
        Pg.rollback, Pg.flush, Pg.commit, Pg.with_begin, Pg.try_except,
        Pg.except_clauses, Pg.SessionLocal, Pg.with_get_db, Pg.serialized,
        Pg.response_of ].

Ltac pg_data :=
  match goal with
  | |- context [has_id ?k (map Transaction.id
                             (?l ++ [Transaction.mk ?k ?ty ?st ?z ?c ?d]))] =>
      rewrite (has_id_new_row l k z ty st c d)
  | H : find_account ?db ?i = Some ?a
    |- context [has_id ?i (map Account.id (account ?db))] =>
      rewrite (find_account_has_id db i a H)
  | H : has_id ?k (map Transaction.id ?l) = false
    |- context [find _ (?l ++ [Transaction.mk ?k ?ty ?st ?z ?c ?d])] =>
      rewrite (find_new_row l k z ty st c d H)
  | H : has_id ?k (map Transaction.id ?l) = false
    |- context [map (Pg.with_amount ?k ?z')
                    (?l ++ [Transaction.mk ?k ?ty ?st ?z ?c ?d])] =>
      rewrite (with_amount_new_row l k z z' ty st c d H)
  | H : Pg.numeric_19_4 ?q = _ |- context [Pg.numeric_19_4 ?q] => rewrite H
  | H : find_account ?db ?i = _ |- context [find_account ?db ?i] => rewrite H
  | |- context [if ?c then _ else _] =>
      match c with
      | Pg.raises ?w ?n ?st =>
          first
            [ match goal with
              | H : Pg.fault_free w |- _ => rewrite (H n st)
              end
            | destruct c eqn:? ]
      end
  | |- context [find_account ?db ?i] => destruct (find_account db i) eqn:?
  | |- context [if negb ?a || negb ?b then _ else _] =>
      destruct a eqn:?; destruct b eqn:?
  | |- context [Pg.decimal_lt ?b ?q] => destruct (Pg.decimal_lt b q) eqn:?
  | |- context [Pg.numeric_19_4 ?q] => destruct (Pg.numeric_19_4 q) eqn:?
  | |- context [Pg.float_differs ?w ?z] =>
      destruct (Pg.float_differs w z) eqn:?
  | |- context [match Pg.float_numeric ?w ?z with _ => _ end] =>
      destruct (Pg.float_numeric w z) eqn:?
  | |- context [(Pg.characters ?c <=? 3)%nat] =>
      destruct (Pg.characters c <=? 3)%nat eqn:?
  | |- context [0 <? ?z] => destruct (Z.ltb_spec 0 z)
  | |- context [has_id ?k ?l] => destruct (has_id k l) eqn:?
  end.

Ltac pg_exec := repeat (first [pg_code | pg_data]; pg_proj).

(** A run that stored nothing, or one that committed. *)
Ltac pg_refused_leaf :=
  left; unfold pg_refused, Pg.db_of, Pg.response;
  cbn [fst snd Pg.succeeded];
  repeat split; (reflexivity || discriminate).

Ltac pg_facts :=
  string_eqs;
  repeat match goal with
         | H : Pg.numeric_19_4 _ = Some _ |- _ =>
             apply numeric_19_4_quantize in H
         | H : has_id _ _ = false |- _ => apply has_id_false in H
         end.

Ltac pg_committed_leaf req :=
  right; exists req; repeat eexists; pg_facts; subst;
  unfold pg_new_transaction, pg_new_entry, pg_answered, Pg.db_of, Pg.response;
  cbn [fst snd Transaction.id Transaction.type Transaction.status
       Transaction.amount Transaction.currency Transaction.description
       LedgerEntry.id LedgerEntry.transaction_id LedgerEntry.account_id
       LedgerEntry.entry_type LedgerEntry.amount];
  repeat split; try reflexivity; try assumption; try discriminate;
  try (left; reflexivity); try (right; reflexivity); try congruence;
  try (match goal with
       | H : Pg.float_differs _ _ = _ |- _ => rewrite H
       end; (reflexivity || assumption));
  try (cbn [LedgerEntry.id]; cbn [In] in *; intuition congruence).


(** ** The outcomes of a ledger operation

    Each of the three operations either leaves the committed tables as they
    were, and then is answered by a failure of the validation or of the
    handler, or has committed one transaction row and its entries, and then is
    answered by that row or, when reading the row back raised, by the 500 of
    the framework. *)

Lemma pg_post_transfers_cases (w : Pg.World) (b : Pg.TransferCreate.body)
  (db : Db) :
  let o := Pg.post_transfers w b db in
  (Pg.db_of o = db /\ pg_refused o)
  \/ exists req t d c,
      let z := Pg.quantize (Pg.TransferCreate.amount req) in
      Pg.TransferCreate.validate b = Some req
      /\ find_account db (Pg.TransferCreate.source_account_id req) <> None
      /\ find_account db (Pg.TransferCreate.destination_account_id req) <> None
      /\ Pg.decimal_lt
           (derived_balance db (Pg.TransferCreate.source_account_id req))
           (Pg.TransferCreate.amount req) = false
      /\ 0 < z
      /\ pg_new_transaction w db "transfer" req z t
      /\ pg_new_entry db t (Pg.TransferCreate.source_account_id req)
                      "debit" z d
      /\ pg_new_entry db t (Pg.TransferCreate.destination_account_id req)
                      "credit" z c
      /\ LedgerEntry.id d <> LedgerEntry.id c
      /\ Pg.db_of o
         = mkDb (account db) (transaction db ++ [t])
                (ledger_entry db ++ [d; c])
      /\ pg_answered o t.
Proof.
  unfold Pg.post_transfers, Pg.with_body.
  destruct (Pg.TransferCreate.validate b) as [req|] eqn:V;
    [|pg_refused_leaf].
  unfold Pg.create_transfer. pg_exec.
  all: try pg_refused_leaf.
  all: pg_committed_leaf req.
Qed.

Lemma pg_post_deposits_cases (w : Pg.World) (b : Pg.TransferCreate.body)
  (db : Db) :
  let o := Pg.post_deposits w b db in
  (Pg.db_of o = db /\ pg_refused o)
  \/ exists req t c,
      let z := Pg.quantize (Pg.TransferCreate.amount req) in
      Pg.TransferCreate.validate b = Some req
      /\ find_account db (Pg.TransferCreate.destination_account_id req) <> None
      /\ 0 < z
      /\ pg_new_transaction w db "deposit" req z t
      /\ pg_new_entry db t (Pg.TransferCreate.destination_account_id req)
                      "credit" z c
      /\ Pg.db_of o
         = mkDb (account db) (transaction db ++ [t]) (ledger_entry db ++ [c])
      /\ pg_answered o t.
Proof.
  unfold Pg.post_deposits, Pg.with_body.
  destruct (Pg.TransferCreate.validate b) as [req|] eqn:V;
    [|pg_refused_leaf].
  unfold Pg.create_deposit. pg_exec.
  all: try pg_refused_leaf.
  all: pg_committed_leaf req.
Qed.

Lemma pg_post_withdrawals_cases (w : Pg.World) (b : Pg.TransferCreate.body)
  (db : Db) :
  let o := Pg.post_withdrawals w b db in
  (Pg.db_of o = db /\ pg_refused o)
  \/ exists req t d,
      let z := Pg.quantize (Pg.TransferCreate.amount req) in
      Pg.TransferCreate.validate b = Some req
      /\ find_account db (Pg.TransferCreate.source_account_id req) <> None
      /\ Pg.decimal_lt
           (derived_balance db (Pg.TransferCreate.source_account_id req))
           (Pg.TransferCreate.amount req) = false
      /\ 0 < z
      /\ pg_new_transaction w db "withdrawal" req z t
      /\ pg_new_entry db t (Pg.TransferCreate.source_account_id req)
                      "debit" z d
      /\ Pg.db_of o
         = mkDb (account db) (transaction db ++ [t]) (ledger_entry db ++ [d])
      /\ pg_answered o t.
Proof.
  unfold Pg.post_withdrawals, Pg.with_body.
  destruct (Pg.TransferCreate.validate b) as [req|] eqn:V;
    [|pg_refused_leaf].
  unfold Pg.create_withdrawal. pg_exec.
  all: try pg_refused_leaf.
  all: pg_committed_leaf req.
Qed.

(** Rounding does not depend on how the decimal is written, and leaves a
    decimal of four places as it is. *)
Lemma quantize_exact (q : Q) (z : Z) :
  (q == Pg.decimal_of z)%Q -> Pg.quantize q = z.
Proof.
  unfold Qeq, Pg.decimal_of, Pg.quantize. cbn [Qnum Qden].
  change (Z.pos 10000) with 10000. intros E.
  set (d := Z.pos (Qden q)) in *. assert (Hd : 0 < d) by (subst d; lia).
  rewrite E.
  replace (Z.abs (z * d)) with (Z.abs z * d) by (rewrite Z.abs_mul; lia).
  replace (2 * (Z.abs z * d) + d) with (d + Z.abs z * (2 * d)) by lia.
  rewrite Z.div_add by lia. rewrite Z.div_small by lia.
  destruct (Z.abs_spec z) as [[H A]|[H A]]; rewrite A.
  - destruct (Z.eq_dec z 0) as [->|N]; [reflexivity|].
    rewrite Z.sgn_pos by nia. lia.
  - rewrite Z.sgn_neg by nia. lia.
Qed.

(** Under the foreign key, no stored entry belongs to a transaction whose
    key is free. *)
Lemma no_entry_of_free_transaction (db : Db) (k : Z) :
  fk_transaction db ->
  ~ In k (map Transaction.id (transaction db)) ->
  filter (fun e => LedgerEntry.transaction_id e =? k) (ledger_entry db) = [].
Proof.
  unfold fk_transaction. intros H N.
  induction (ledger_entry db) as [|e es IH]; [reflexivity|].
  inversion H as [|? ? He Hes]; subst. cbn [filter].
  destruct (Z.eqb_spec (LedgerEntry.transaction_id e) k) as [E|E].
  - exfalso. apply N. now rewrite <- E.
  - now apply IH.
Qed.

Ltac pg_entry e :=
  let k := fresh "k" in
  destruct e as [k ? ? ? ?];
  match goal with
  | H : pg_new_entry _ _ _ _ _ _ |- _ =>
      let N := fresh "N" in
      destruct H as (N & ? & ? & ? & ?);
      cbn [LedgerEntry.id LedgerEntry.transaction_id LedgerEntry.account_id
           LedgerEntry.entry_type LedgerEntry.amount] in *
  end.




(** C4, as amended.  A transfer, a deposit or a withdrawal that is answered
    with a failure of the validation or of the handler (the body does not
    validate, an account is missing, the currency disagrees, the funds are
    insufficient, or a statement raised an unexpected error at any point up
    to and including the COMMIT, also between the INSERT of the transaction
    and the INSERT of its entries) leaves the database exactly as it was: the
    same transaction rows, the same ledger entries and the same derived
    balance for every account.  The one failure that leaves rows behind is
    the 500 of the framework, given when reading the committed transaction
    back for the response raises: then the whole operation is stored, one new
    transaction row and all of its entries (both entries of a transfer),
    never a part of it. *)
Theorem failure_before_the_commit_changes_nothing :
  forall (w : Pg.World) (b : Pg.TransferCreate.body) (db : Db)
         (o : Pg.Outcome),
    o = Pg.post_transfers w b db
    \/ o = Pg.post_deposits w b db
    \/ o = Pg.post_withdrawals w b db ->
    (Pg.failure (Pg.response o) <> None ->
     Pg.response o <> Pg.Failed 500 "Internal Server Error" ->
     Pg.db_of o = db
     /\ transaction (Pg.db_of o) = transaction db
     /\ ledger_entry (Pg.db_of o) = ledger_entry db
     /\ forall i, derived_balance (Pg.db_of o) i = derived_balance db i)
    /\ (Pg.response o = Pg.Failed 500 "Internal Server Error" ->
        exists t es,
          Pg.db_of o
          = mkDb (account db) (transaction db ++ [t]) (ledger_entry db ++ es)
          /\ ~ In (Transaction.id t) (map Transaction.id (transaction db))
          /\ es <> []
          /\ Forall (fun e => LedgerEntry.transaction_id e = Transaction.id t)
                    es
          /\ (Transaction.type t = "transfer" -> List.length es = 2%nat)).
Proof.
  intros w b db o Ho.
  assert (C : (Pg.db_of o = db /\ pg_refused o)
              \/ exists t es,
                  Pg.db_of o
                  = mkDb (account db) (transaction db ++ [t])
                         (ledger_entry db ++ es)
                  /\ ~ In (Transaction.id t)
                          (map Transaction.id (transaction db))
                  /\ es <> []
                  /\ Forall (fun e => LedgerEntry.transaction_id e
                                      = Transaction.id t) es
                  /\ (Transaction.type t = "transfer"
                      -> List.length es = 2%nat)
                  /\ pg_answered o t).
  { destruct Ho as [->|[->| ->]].
    - destruct (pg_post_transfers_cases w b db) as [R|C]; [now left|right].
      destruct C as (req & t & d & c & _ & _ & _ & _ & _ & T & D & C & _
                     & E & A).
      exists t, [d; c]. split; [exact E|]. split; [exact (proj1 T)|].
      split; [discriminate|]. split; [|now split].
      repeat constructor; [apply D|apply C].
    - destruct (pg_post_deposits_cases w b db) as [R|C]; [now left|right].
      destruct C as (req & t & c & _ & _ & _ & T & C & E & A).
      exists t, [c]. split; [exact E|]. split; [exact (proj1 T)|].
      split; [discriminate|]. split; [repeat constructor; apply C|].
      split; [|exact A].
      destruct T as (_ & T & _). rewrite T. discriminate.
    - destruct (pg_post_withdrawals_cases w b db) as [R|C]; [now left|right].
      destruct C as (req & t & d & _ & _ & _ & _ & T & D & E & A).
      exists t, [d]. split; [exact E|]. split; [exact (proj1 T)|].
      split; [discriminate|]. split; [repeat constructor; apply D|].
      split; [|exact A].
      destruct T as (_ & T & _). rewrite T. discriminate. }
  split.
  - intros F N. destruct C as [[E _]|(t & es & _ & _ & _ & _ & _ & [A|A])].
    + rewrite E. now repeat split.
    + rewrite A in F. now contradiction F.
    + contradiction.
  - intros F. destruct C as [[_ [_ N]]|(t & es & E & K & H1 & H2 & H3 & _)].
    + contradiction.
    + now exists t, es.
Qed.

(** A transfer and a withdrawal whose INSERT of the ledger entries raises:
    the transaction row written before it is gone. *)
Lemma failure_before_the_commit_changes_nothing_witness :
  Pg.response (Pg.post_transfers (Pg.sample_world 3 2 2 (Nat.eqb 6))
                 (Pg.sample_body 1 2 (1 # 10) "USD") sample_db)
  = Pg.Failed 500 "An unexpected error occurred during the transfer."
  /\ Pg.db_of (Pg.post_transfers (Pg.sample_world 3 2 2 (Nat.eqb 6))
                 (Pg.sample_body 1 2 (1 # 10) "USD") sample_db)
     = sample_db
  /\ Pg.response (Pg.post_withdrawals (Pg.sample_world 3 2 2 (Nat.eqb 5))
                    (Pg.sample_body 1 2 (1 # 10) "USD") sample_db)
     = Pg.Failed 500 "An unexpected error occurred."
  /\ Pg.db_of (Pg.post_withdrawals (Pg.sample_world 3 2 2 (Nat.eqb 5))
                 (Pg.sample_body 1 2 (1 # 10) "USD") sample_db)
     = sample_db.
Proof.
  split; [reflexivity|]. split.
  - refine (proj1 (proj1 (failure_before_the_commit_changes_nothing
                     (Pg.sample_world 3 2 2 (Nat.eqb 6))
                     (Pg.sample_body 1 2 (1 # 10) "USD") sample_db _
                     (or_introl eq_refl)) _ _)).
    + vm_compute. discriminate.
    + vm_compute. discriminate.
  - split; [reflexivity|].
    refine (proj1 (proj1 (failure_before_the_commit_changes_nothing
                     (Pg.sample_world 3 2 2 (Nat.eqb 5))
                     (Pg.sample_body 1 2 (1 # 10) "USD") sample_db _
                     (or_intror (or_intror eq_refl))) _ _)).
    + vm_compute. discriminate.
    + vm_compute. discriminate.
Defined.

(** C4, as stated, fails: when the SELECT that reads the committed
    transaction back raises, the transfer is answered with an internal error
    although its transaction row and its two entries are stored and the
    balance of the source has gone down. *)
Lemma transfer_fails_after_the_commit :
  Pg.failure
    (Pg.response (Pg.post_transfers (Pg.sample_world 3 2 2 (Nat.eqb 8))
                    (Pg.sample_body 1 2 (1 # 10) "USD") sample_db))
  = Some Internal
  /\ Pg.db_of (Pg.post_transfers (Pg.sample_world 3 2 2 (Nat.eqb 8))
                 (Pg.sample_body 1 2 (1 # 10) "USD") sample_db)
     = mkDb (account sample_db)
            (transaction sample_db
             ++ [Transaction.mk 2 "transfer" "completed" 1000 "USD" None])
            (ledger_entry sample_db
             ++ [LedgerEntry.mk 2 2 1 "debit" 1000;
                 LedgerEntry.mk 3 2 2 "credit" 1000])
  /\ derived_balance sample_db 1 = 1000000
  /\ derived_balance
       (Pg.db_of (Pg.post_transfers (Pg.sample_world 3 2 2 (Nat.eqb 8))
                    (Pg.sample_body 1 2 (1 # 10) "USD") sample_db)) 1
     = 999000.
Proof. now repeat split. Qed.
